(** * bookshelf-entity: entity-driven serialization for Bookshelf models

    A shallow embedding of the plugin's JavaScript sources:

    - [Plugin]  the current plugin (src/unnamed/part_001): [present], [render],
      [represent], relation auto-detection and the recursive safety check;
    - [IndexA]  the first definition in src/index.js: the [toJSON] hook with
      the [entityRoot] flag, and collections that filter falsy entries;
    - [IndexB]  the second definition in src/index.js: the same hook, and
      collections that apply [represent] themselves;
    - [JsonEntity] and [Bookshelf]  the two collaborators the plugin calls
      (json-entity's [Entity.represent], Bookshelf's base serialization),
      which are not part of the sources. *)

From Stdlib Require Import String Ascii List ZArith Bool Lia.
Import ListNotations.
Set Warnings "-register-all".
Local Open Scope string_scope.
Local Open Scope list_scope.

(** ** JavaScript values *)

(** Plain data as it appears in serialized output and in option flags.
    Numbers are integers here; nothing below depends on fractions or NaN. *)
Inductive value : Type :=
| VUndefined
| VNull
| VBool (b : bool)
| VNum (n : Z)
| VStr (s : string)
| VArr (items : list value)
| VObj (fields : list (string * value))
| VFun (name : string).   (* a function, opaque *)

(** JavaScript truthiness: [!!v]. Objects, arrays and functions are truthy,
    also an empty object or array. *)
Definition truthy (v : value) : bool :=
  match v with
  | VUndefined | VNull => false
  | VBool b => b
  | VNum n => negb (n =? 0)%Z
  | VStr s => negb (s =? "")
  | VArr _ | VObj _ | VFun _ => true
  end.

(** [Boolean] used as a filter predicate on an array of strings. *)
Definition Boolean (s : string) : bool := negb (s =? "").

(** ** Objects as ordered property lists *)

(** A JavaScript object used as a map: own properties in enumeration order.
    Reading a property takes the first binding. *)
Fixpoint lookup {A : Type} (k : string) (o : list (string * A)) : option A :=
  match o with
  | [] => None
  | (k', v) :: o' => if k' =? k then Some v else lookup k o'
  end.

(** [Object.keys(o)] *)
Definition keys {A : Type} (o : list (string * A)) : list string := map fst o.

(** lodash [has(o, key)] on an object that may be [undefined], for a key
    that is a plain property name. *)
Definition has {A : Type} (o : option (list (string * A))) (k : string) : bool :=
  match o with
  | None => false
  | Some o => match lookup k o with Some _ => true | None => false end
  end.

Definition isSome {A : Type} (o : option A) : bool :=
  match o with Some _ => true | None => false end.

(** [a || b] on values that are either an object or absent. *)
Definition orElse {A : Type} (a b : option A) : option A :=
  match a with Some _ => a | None => b end.

(** ** Completions *)

Inductive Error : Type :=
| JsError (message : string)     (* throw new Error(message) *)
| TypeError (message : string).  (* property access on undefined or null *)

(** The result of running a piece of code: a value, or a thrown error (for
    promise-returning code: fulfilled, or rejected). *)
Inductive Res (A : Type) : Type :=
| Ok (a : A)
| Throw (e : Error).
Arguments Ok {A} a.
Arguments Throw {A} e.

Definition res_bind {A B : Type} (r : Res A) (k : A -> Res B) : Res B :=
  match r with
  | Ok a => k a
  | Throw e => Throw e
  end.

Declare Scope res_scope.
Delimit Scope res_scope with res.
Notation "x <- r ;; k" := (res_bind r (fun x => k))
  (at level 61, r at next level, right associativity) : res_scope.
Notation "r1 ;; r2" := (res_bind r1 (fun _ => r2))
  (at level 61, right associativity) : res_scope.

(** [xs.forEach(f)] where [f] may throw: the first throw ends the loop. *)
Definition forEach {A : Type} (xs : list A) (f : A -> Res unit) : Res unit :=
  (fix loop (xs : list A) : Res unit :=
     match xs with
     | [] => Ok tt
     | x :: xs' => res_bind (f x) (fun _ => loop xs')
     end) xs.

(** [xs.reduce(f, init)] where [f] may throw. *)
Fixpoint reduce {A B : Type} (f : B -> A -> Res B) (xs : list A) (init : B) : Res B :=
  match xs with
  | [] => Ok init
  | x :: xs' => res_bind (f init x) (fun acc => reduce f xs' acc)
  end.

(** ** Stateful code *)

(** A method body that reads and writes a state [S] (the receiver, or the
    options object it was handed) and may throw. A throw keeps the writes
    made before it. *)
Definition M (S A : Type) : Type := S -> Res A * S.

Definition ret {S A : Type} (a : A) : M S A := fun s => (Ok a, s).

Definition bind {S A B : Type} (m : M S A) (k : A -> M S B) : M S B :=
  fun s =>
    match m s with
    | (Ok a, s') => k a s'
    | (Throw e, s') => (Throw e, s')
    end.

Definition lift {S A : Type} (r : Res A) : M S A := fun s => (r, s).
Definition get {S : Type} : M S S := fun s => (Ok s, s).
Definition modify {S : Type} (f : S -> S) : M S unit := fun s => (Ok tt, f s).

Declare Scope m_scope.
Delimit Scope m_scope with m.
Notation "x <- m ;; k" := (bind m (fun x => k))
  (at level 61, m at next level, right associativity) : m_scope.
Notation "m1 ;; m2" := (bind m1 (fun _ => m2))
  (at level 61, right associativity) : m_scope.

(** ** Entities (json-entity) *)

(** An entity is its ordered list of exposed properties; a property carries
    its key and the options [using], [as], [if] and [value]. The functions
    of [if] and [value] receive the data object and the options' flags. *)
Inductive Entity : Type :=
  mkEntity { properties : list Property }
with Property : Type :=
  mkProperty {
    key : string;
    using_ : option Entity;
    as_ : option string;
    if_ : option (value -> list (string * value) -> bool);
    value_ : option (value -> list (string * value) -> value) }.

(** [key: true] *)
Definition expose (k : string) : Property := mkProperty k None None None None.
(** [key: { using: e }] *)
Definition nested (k : string) (e : Entity) : Property :=
  mkProperty k (Some e) None None None.

(** ** Options *)

(** The options object. [entity], [with] and [using] hold entities;
    [shallow] and [entityRoot] are read for their truthiness; [safe] may be
    missing altogether; [flags] are the caller's own properties. *)
Record Options : Type := mkOptions {
  opt_entity : option Entity;
  opt_with : option Entity;
  opt_using : option Entity;
  opt_shallow : value;
  opt_safe : option value;
  opt_entityRoot : value;
  opt_flags : list (string * value) }.

(** [{}] *)
Definition empty_options : Options :=
  mkOptions None None None VUndefined None VUndefined [].

(** What a caller may pass where options are expected. *)
Inductive Arg : Type :=
| ArgObject (o : Options)
| ArgUndefined
| ArgNull
| ArgPrimitive.   (* a boolean, a number or a string *)

(** [isObject(options) ? options : {}] *)
Definition ensure_object (options : Arg) : Options :=
  match options with
  | ArgObject o => o
  | _ => empty_options
  end.

(** A parameter declared [options = {}]: only a missing argument takes the
    default. *)
Definition default_arg (options : Arg) : Arg :=
  match options with
  | ArgUndefined => ArgObject empty_options
  | _ => options
  end.

(** [options.shallow] for an argument that already took its default;
    reading a property of [null] throws. *)
Definition arg_shallow (options : Arg) : Res value :=
  match options with
  | ArgObject o => Ok (opt_shallow o)
  | ArgPrimitive => Ok VUndefined
  | ArgUndefined | ArgNull =>
      Throw (TypeError "Cannot read property 'shallow' of null")
  end.

(** [extend({ safe: false }, opts)]: a new object with every property of
    [opts], and [safe: false] unless [opts] has a [safe] of its own. *)
Definition extend_safe_false (opts : Options) : Options :=
  mkOptions (opt_entity opts) (opt_with opts) (opt_using opts)
    (opt_shallow opts)
    (Some (match opt_safe opts with Some v => v | None => VBool false end))
    (opt_entityRoot opts) (opt_flags opts).

(** [opts.entityRoot = true] *)
Definition set_entityRoot (opts : Options) : Options :=
  mkOptions (opt_entity opts) (opt_with opts) (opt_using opts)
    (opt_shallow opts) (opt_safe opts) (VBool true) (opt_flags opts).

(** ** Models and collections (Bookshelf) *)

(** A host object as the plugin reads it. [relations] is the object's
    [relations] property, [None] when the object has none; [members] are its
    other properties (relation methods and the like), read as [model[key]];
    [entitySafeMode] and [defaultEntity] come from the prototype. *)
Inductive Model : Type :=
  mkModel {
    entitySafeMode : bool;
    defaultEntity : option Entity;
    attributes : list (string * value);
    members : list (string * value);
    relations : option (list (string * Model)) }.

(** Truthiness of [model[key]]. *)
Definition truthy_at (model : Model) (k : string) : bool :=
  if k =? "relations" then isSome (relations model)
  else if k =? "attributes" then true
  else if k =? "entitySafeMode" then entitySafeMode model
  else if k =? "defaultEntity" then isSome (defaultEntity model)
  else match lookup k (members model) with
       | Some v => truthy v
       | None => false
       end.

(** A collection: its models, and the two prototype properties of its model
    class ([this.model.prototype]). *)
Record Collection : Type := mkCollection {
  model_entitySafeMode : bool;
  model_defaultEntity : option Entity;
  models : list Model }.

(** [this.size()] and [this.first()] *)
Definition size (c : Collection) : nat := length (models c).
Definition first (c : Collection) : option Model := head (models c).

(** ** The error of an unsafe relation *)

(** The double quote of the error message. *)
Definition dquote : string := String (ascii_of_nat 34) "".

(** The message every variant of the check throws, naming the relation. *)
Definition unsafe_message (relation : string) : string :=
  ("Entity has an exposed relation " ++ dquote ++ relation ++ dquote
   ++ " that does not have a " ++ dquote ++ "using" ++ dquote
   ++ " option specified!")%string.

(** ** The plugin (src/unnamed/part_001) *)

Module Plugin.

Local Open Scope res_scope.

(** [model && model.relations[key]] *)
Definition loaded_relation (model : option Model) (k : string) : Res (option Model) :=
  match model with
  | None => Ok None
  | Some m =>
      match relations m with
      | None => Throw (TypeError "Cannot read property of undefined")
      | Some rs => Ok (lookup k rs)
      end
  end.

(** [!model || (!has(model.relations, key) && model[key])] *)
Definition should_load (model : option Model) (k : string) : bool :=
  match model with
  | None => true
  | Some m => negb (has (relations m) k) && truthy_at m k
  end.

(** The body of [detectRelationsToLoad] for an entity that is there. *)
Fixpoint detectRelations (entity : Entity) (model : option Model) (prefix : string)
  : Res (list string) :=
  found <- reduce (fun relations property =>
      match using_ property with
      | Some u =>
          let relations :=
            if should_load model (key property)
            then relations ++ [(prefix ++ key property)%string]
            else relations in
          sub <- loaded_relation model (key property) ;;
          more <- detectRelations u sub (prefix ++ key property ++ ".")%string ;;
          Ok (relations ++ more)
      | None => Ok relations
      end) (properties entity) [] ;;
  Ok (filter Boolean found).

Definition detectRelationsToLoad (entity : option Entity) (model : option Model)
  (prefix : string) : Res (list string) :=
  match entity with
  | None => Ok []
  | Some e => detectRelations e model prefix
  end.

Fixpoint performSafetyCheck (entity : Entity) (model : Model) {struct entity} : Res unit :=
  let rels := match relations model with Some rs => rs | None => [] end in
  forEach (keys rels) (fun relation =>
    forEach (properties entity) (fun property =>
      if relation =? key property then
        match using_ property with
        | None => Throw (JsError (unsafe_message relation))
        | Some u =>
            match lookup relation rels with
            | Some sub => performSafetyCheck u sub
            | None => Throw (TypeError "Cannot read property 'relations' of undefined")
            end
        end
      else Ok tt)).

(** *** Methods

    A method runs in a world: its receiver [this], and the relation paths
    that were handed to [this.load] so far. *)
Record World (T : Type) : Type := mkWorld {
  this : T;
  loads : list (list string) }.
Arguments mkWorld {T} this loads.
Arguments this {T} w.
Arguments loads {T} w.

Section Host.

(** json-entity: [entity.represent(data, options)] *)
Variable entity_represent : Entity -> value -> Arg -> Res value.
(** Bookshelf: [ModelBase.prototype.toJSON.call(this, options)] *)
Variable ModelBase_toJSON : Model -> Arg -> Res value.
(** Bookshelf: [CollectionBase.prototype.toJSON.call(this, options)] *)
Variable CollectionBase_toJSON : Collection -> Arg -> Res value.

Section Loading.

Context {T : Type}.
(** Bookshelf: [this.load(relations)], how its promise settles and what
    the receiver is afterwards; a load that rejects may have materialized
    some relations before. *)
Variable host_load : list string -> T -> Res unit * T.

(** [this.load(relations)] *)
Definition load (relations : list string) : M (World T) unit :=
  fun w =>
    (fst (host_load relations (this w)),
     mkWorld (snd (host_load relations (this w))) (loads w ++ [relations])).

(** [relations ? this.load(relations) : this], [relations] an array. *)
Definition load_if_truthy (relations : list string) : M (World T) unit :=
  if truthy (VArr (map VStr relations)) then load relations else ret tt.

End Loading.

Local Open Scope m_scope.

(** [this.entitySafeMode && !options.shallow] *)
Definition check_enabled (safeMode : bool) (options : Arg) : Res bool :=
  if safeMode
  then res_bind (arg_shallow options) (fun s => Ok (negb (truthy s)))
  else Ok false.

Definition Model_represent (entity : option Entity) (options : Arg)
  : M (World Model) value :=
  let options := default_arg options in
  match entity with
  | None => ret VUndefined
  | Some e =>
      w <- get ;;
      enabled <- lift (check_enabled (entitySafeMode (this w)) options) ;;
      (if enabled : bool then lift (performSafetyCheck e (this w)) else ret tt) ;;
      json <- lift (ModelBase_toJSON (this w) options) ;;
      lift (entity_represent e json options)
  end.

Variable Model_load : list string -> Model -> Res unit * Model.

Definition Model_present (options : Arg) : M (World Model) value :=
  let opts := ensure_object (default_arg options) in
  w <- get ;;
  let entity :=
    orElse (orElse (orElse (opt_entity opts) (opt_with opts)) (opt_using opts))
           (defaultEntity (this w)) in
  match entity with
  | None => ret VUndefined
  | Some e =>
      w <- get ;;
      relations <- lift (detectRelationsToLoad (Some e) (Some (this w)) "") ;;
      load_if_truthy Model_load relations ;;
      Model_represent (Some e) (ArgObject (extend_safe_false opts))
  end.

Definition Model_render (options : Arg) : M (World Model) value :=
  Model_present options.

Definition Collection_represent (entity : option Entity) (options : Arg)
  : M (World Collection) value :=
  let options := default_arg options in
  match entity with
  | None => ret (VArr [])
  | Some e =>
      w <- get ;;
      enabled <- lift (check_enabled (model_entitySafeMode (this w)) options) ;;
      (if enabled : bool
       then lift (forEach (models (this w)) (fun model => performSafetyCheck e model))
       else ret tt) ;;
      json <- lift (CollectionBase_toJSON (this w) options) ;;
      lift (entity_represent e json options)
  end.

Variable Collection_load : list string -> Collection -> Res unit * Collection.

Definition Collection_present (options : Arg) : M (World Collection) value :=
  let opts := ensure_object (default_arg options) in
  w <- get ;;
  let entity :=
    orElse (orElse (orElse (opt_entity opts) (opt_with opts)) (opt_using opts))
           (model_defaultEntity (this w)) in
  match entity with
  | None => ret (VArr [])
  | Some e =>
      if (size (this w) =? 0)%nat then ret (VArr [])
      else
        w <- get ;;
        relations <- lift (detectRelationsToLoad (Some e) (first (this w)) "") ;;
        load_if_truthy Collection_load relations ;;
        Collection_represent (Some e) (ArgObject (extend_safe_false opts))
  end.

Definition Collection_render (options : Arg) : M (World Collection) value :=
  Collection_present options.

End Host.

Section Effects.

Local Open Scope m_scope.

(** The two collaborators as calls that run in the world of the method:
    [entity.represent(data, options)] may run the functions of [if] and
    [value], [ModelBase.prototype.toJSON.call(this, options)] is handed the
    receiver; either may read and write. *)
Variable entity_represent : Entity -> value -> Arg -> M (World Model) value.
Variable ModelBase_toJSON : Arg -> M (World Model) value.

(** [Model.represent] over such collaborators: the same body, the two calls
    made in sequence in the world. *)
Definition Model_represent_calling (entity : option Entity) (options : Arg)
  : M (World Model) value :=
  let options := default_arg options in
  match entity with
  | None => ret VUndefined
  | Some e =>
      w <- get ;;
      enabled <- lift (check_enabled (entitySafeMode (this w)) options) ;;
      (if enabled : bool then lift (performSafetyCheck e (this w)) else ret tt) ;;
      json <- ModelBase_toJSON options ;;
      entity_represent e json options
  end.

End Effects.

End Plugin.

(** ** The toJSON hook with the root flag (src/index.js)

    src/index.js holds two definitions of the plugin, one after the other.
    Their model methods are the same text; they differ in the collection. *)

(** The relation check both definitions write inline in [represent]: one
    level, no recursion into the relations. *)
Definition checkRelations (entity : Entity) (model : Model) : Res unit :=
  match relations model with
  | None => Throw (TypeError "Cannot convert undefined or null to object")
  | Some rels =>
      forEach (keys rels) (fun relation =>
        forEach (properties entity) (fun property =>
          if (relation =? key property) && negb (isSome (using_ property))
          then Throw (JsError (unsafe_message relation))
          else Ok tt))
  end.

(** First definition (src/index.js, lines 9 to 113). *)
Module IndexA.

Local Open Scope m_scope.

Section Host.

(** json-entity: [entity.represent(data, options)] *)
Variable entity_represent : Entity -> value -> Options -> Res value.
(** Bookshelf: [ModelBase.prototype.toJSON.call(this, options)]; it may
    write to the options object, through the [toJSON] of the relations. *)
Variable ModelBase_toJSON : Model -> M Options value.
(** Bookshelf: [CollectionBase.prototype.toJSON.apply(this, args)], an
    array; the state is what the caller passed as options. *)
Variable CollectionBase_toJSON : Collection -> M Arg (list value).

(** [represent(entity, options)], the state being the object [options]. *)
Definition Model_represent (this : Model) (entity : option Entity)
  : M Options value :=
  match entity with
  | None => ret VUndefined
  | Some e =>
      options <- get ;;
      (if entitySafeMode this && negb (truthy (opt_shallow options))
       then lift (checkRelations e this) else ret tt) ;;
      json <- ModelBase_toJSON this ;;
      options <- get ;;
      lift (entity_represent e json options)
  end.

(** The body of [toJSON], the state being the object [opts]. *)
Definition Model_toJSON_on (this : Model) : M Options value :=
  opts <- get ;;
  if negb (truthy (opt_entityRoot opts)) then
    modify set_entityRoot ;;
    opts <- get ;;
    Model_represent this (orElse (opt_entity opts) (defaultEntity this))
  else ModelBase_toJSON this.

(** [toJSON(options)]: the completion, and the object [opts] afterwards. *)
Definition Model_toJSON (this : Model) (options : Arg) : Res value * Options :=
  Model_toJSON_on this (ensure_object (default_arg options)).

(** [toJSON(...args)] of a collection. *)
Definition Collection_toJSON (this : Collection) : M Arg value :=
  items <- CollectionBase_toJSON this ;;
  ret (VArr (filter truthy items)).

End Host.

End IndexA.

(** Second definition (src/index.js, lines 123 to 284). *)
Module IndexB.

Local Open Scope m_scope.

Section Host.

Variable entity_represent : Entity -> value -> Options -> Res value.
Variable ModelBase_toJSON : Model -> M Options value.
(** Bookshelf: [CollectionBase.prototype.toJSON.call(this, options)] *)
Variable CollectionBase_toJSON : Collection -> M Options (list value).

Definition Model_represent (this : Model) (entity : option Entity)
  : M Options value :=
  match entity with
  | None => ret VUndefined
  | Some e =>
      options <- get ;;
      (if entitySafeMode this && negb (truthy (opt_shallow options))
       then lift (checkRelations e this) else ret tt) ;;
      json <- ModelBase_toJSON this ;;
      options <- get ;;
      lift (entity_represent e json options)
  end.

Definition Model_toJSON_on (this : Model) : M Options value :=
  opts <- get ;;
  if negb (truthy (opt_entityRoot opts)) then
    modify set_entityRoot ;;
    opts <- get ;;
    Model_represent this (orElse (opt_entity opts) (defaultEntity this))
  else ModelBase_toJSON this.

Definition Model_toJSON (this : Model) (options : Arg) : Res value * Options :=
  Model_toJSON_on this (ensure_object (default_arg options)).

Definition Collection_represent (this : Collection) (entity : option Entity)
  : M Options value :=
  match entity with
  | None => ret (VArr [])
  | Some e =>
      options <- get ;;
      (if model_entitySafeMode this && negb (truthy (opt_shallow options))
       then lift (forEach (models this) (fun model => checkRelations e model))
       else ret tt) ;;
      items <- CollectionBase_toJSON this ;;
      let collection := filter truthy items in
      options <- get ;;
      lift (entity_represent e (VArr collection) options)
  end.

Definition Collection_toJSON_on (this : Collection) : M Options value :=
  opts <- get ;;
  if negb (truthy (opt_entityRoot opts)) then
    modify set_entityRoot ;;
    opts <- get ;;
    Collection_represent this (orElse (opt_entity opts) (model_defaultEntity this))
  else
    items <- CollectionBase_toJSON this ;;
    ret (VArr items).

Definition Collection_toJSON (this : Collection) (options : Arg)
  : Res value * Options :=
  Collection_toJSON_on this (ensure_object (default_arg options)).

End Host.

End IndexB.

(** ** The collaborators *)

(** [o[k] = v] on an object: an existing property keeps its place. *)
Fixpoint assign {A : Type} (k : string) (v : A) (o : list (string * A))
  : list (string * A) :=
  match o with
  | [] => [(k, v)]
  | (k', v') :: o' => if k' =? k then (k, v) :: o' else (k', v') :: assign k v o'
  end.

(** The properties of an options object that are plain values, as the
    functions of [if] and [value] may read them. *)
Definition flags_of (o : Options) : list (string * value) :=
  opt_flags o
  ++ [("shallow", opt_shallow o);
      ("safe", match opt_safe o with Some v => v | None => VUndefined end);
      ("entityRoot", opt_entityRoot o)].

Definition flags_of_arg (options : Arg) : list (string * value) :=
  match options with
  | ArgObject o => flags_of o
  | _ => []
  end.

Module JsonEntity.

(** The attribute mapping of a data object. *)
Definition fields_of (data : value) : list (string * value) :=
  match data with
  | VObj fields => fields
  | _ => []
  end.

(** An element that a represented sequence drops: an empty mapping, or a
    falsy value. *)
Definition empty_or_falsy (v : value) : bool :=
  match v with
  | VObj [] => true
  | _ => negb (truthy v)
  end.

(** Modelled from the spec: json-entity's [Entity.represent] is not among
    the sources. This is the property rule evaluator applied to every rule
    of the entity in order, on one data object: a rule whose [if] fails is
    omitted; with [using] the value under the key is represented by the
    nested entity (each element of a sequence, dropping the empty or falsy
    ones; a single object; anything else gives [undefined]); else a [value]
    function is called; else the attribute is looked up; the output key is
    [as] if present, else the key; rules that give [undefined] are left
    out. *)
Fixpoint represent_object (entity : Entity) (flags : list (string * value))
  (data : value) {struct entity} : value :=
  VObj (fold_left (fun out rule =>
    let included :=
      match if_ rule with
      | Some predicate => predicate data flags
      | None => true
      end in
    if included then
      let v :=
        match using_ rule with
        | Some u =>
            match lookup (key rule) (fields_of data) with
            | Some (VArr items) =>
                VArr (filter (fun r => negb (empty_or_falsy r))
                        (map (represent_object u flags) items))
            | Some (VObj fields) => represent_object u flags (VObj fields)
            | _ => VUndefined
            end
        | None =>
            match value_ rule with
            | Some f => f data flags
            | None =>
                match lookup (key rule) (fields_of data) with
                | Some a => a
                | None => VUndefined
                end
            end
        end in
      match v with
      | VUndefined => out
      | _ => assign (match as_ rule with Some name => name | None => key rule end) v out
      end
    else out) (properties entity) []).

(** Modelled from the spec: the representation engine on a single object or
    on a collection (section 4.3): a collection is represented element by
    element, and the elements whose mapping is empty or falsy are dropped. *)
Definition represent (entity : Entity) (flags : list (string * value))
  (data : value) : value :=
  match data with
  | VArr items =>
      VArr (filter (fun r => negb (empty_or_falsy r))
              (map (represent_object entity flags) items))
  | _ => represent_object entity flags data
  end.

(** [entity.represent(data, options)] as the plugin calls it. *)
Definition represent_arg (entity : Entity) (data : value) (options : Arg)
  : Res value :=
  Ok (represent entity (flags_of_arg options) data).

Definition represent_on (entity : Entity) (data : value) (options : Options)
  : Res value :=
  Ok (represent entity (flags_of options) data).

End JsonEntity.

Module Bookshelf.

Local Open Scope m_scope.

Definition loaded (this : Model) : list (string * Model) :=
  match relations this with
  | Some rels => rels
  | None => []
  end.

(** Modelled from the spec: Bookshelf's own serialization is not among the
    sources. The snapshot of a model is its attributes and, unless
    [shallow], each loaded relation serialized in turn under its name. *)
Fixpoint serialize (shallow : bool) (this : Model) {struct this} : value :=
  VObj (if shallow then attributes this
        else fold_left (fun attrs kr => assign (fst kr) (snd kr) attrs)
               match relations this with
               | Some rels => map (fun kr => (fst kr, serialize shallow (snd kr))) rels
               | None => []
               end
               (attributes this)).

Definition shallow_of (options : Arg) : bool :=
  match options with
  | ArgObject o => truthy (opt_shallow o)
  | _ => false
  end.

(** [ModelBase.prototype.toJSON.call(this, options)] where no [toJSON] is
    overridden (the plugin of src/unnamed/part_001). *)
Definition Model_toJSON (this : Model) (options : Arg) : Res value :=
  Ok (serialize (shallow_of options) this).

Definition Collection_toJSON (this : Collection) (options : Arg) : Res value :=
  Ok (VArr (map (serialize (shallow_of options)) (models this))).

(** [this.load(relations)] of a host on which every relation is already
    in memory. *)
Definition load_nothing {T : Type} (paths : list string) (this : T) : Res unit * T :=
  (Ok tt, this).

(** Run pending serializations one after the other on the same options
    object and assign each result under its name. *)
Fixpoint assign_each (pending : list (string * M Options value))
  (attrs : list (string * value)) : M Options (list (string * value)) :=
  match pending with
  | [] => ret attrs
  | (k, m) :: rest => v <- m ;; assign_each rest (assign k v attrs)
  end.

(** Modelled from the spec: the base serialization where the relations have
    a [toJSON] of their own (the hook of src/index.js): it is called on each
    loaded relation with the very options object the caller passed. *)
Definition serialize_with (toJSON : Model -> M Options value) (this : Model)
  : M Options value :=
  opts <- get ;;
  if truthy (opt_shallow opts) then ret (VObj (attributes this))
  else
    attrs <- assign_each (map (fun kr => (fst kr, toJSON (snd kr))) (loaded this))
               (attributes this) ;;
    ret (VObj attrs).

(** Call [toJSON(options)] on each model in turn, with the same options. *)
Fixpoint each_toJSON {S : Type} (toJSON : Model -> M S value) (ms : list Model)
  : M S (list value) :=
  match ms with
  | [] => ret []
  | m :: rest => v <- toJSON m ;; vs <- each_toJSON toJSON rest ;; ret (v :: vs)
  end.

(** Modelled from the spec: the base serialization of a collection, the
    array of what each model's [toJSON] returns. *)
Definition collection_serialize_with {S : Type} (toJSON : Model -> M S value)
  (this : Collection) : M S (list value) :=
  each_toJSON toJSON (models this).

(** A model's [toJSON(options)] seen from the caller: an options object
    that was passed is shared with the callee, anything else is not. *)
Definition call_toJSON (toJSON : Model -> Arg -> Res value * Options)
  (this : Model) : M Arg value :=
  fun options =>
    match options with
    | ArgObject _ => (fst (toJSON this options), ArgObject (snd (toJSON this options)))
    | _ => (fst (toJSON this options), options)
    end.

Section Hooked.

Variable entity_represent : Entity -> value -> Options -> Res value.

(** The [toJSON] hook of src/index.js on a whole tree of models: the base
    serialization reaches the hook of every loaded relation. *)
Fixpoint hooked_toJSON (this : Model) {struct this} : M Options value :=
  IndexB.Model_toJSON_on entity_represent
    (fun _ =>
       opts <- get ;;
       if truthy (opt_shallow opts) then ret (VObj (attributes this))
       else
         attrs <- assign_each
                    match relations this with
                    | Some rels => map (fun kr => (fst kr, hooked_toJSON (snd kr))) rels
                    | None => []
                    end
                    (attributes this) ;;
         ret (VObj attrs))
    this.

End Hooked.

(** The hook called as a method, [model.toJSON(options)]. *)
Definition hooked_call (entity_represent : Entity -> value -> Options -> Res value)
  (this : Model) (options : Arg) : Res value * Options :=
  hooked_toJSON entity_represent this (ensure_object (default_arg options)).

(** The base serialization of a collection whose models carry the hook:
    as the first definition of src/index.js calls it, with the caller's
    arguments, and as the second calls it, with the options object. *)
Definition hooked_collection_args
  (entity_represent : Entity -> value -> Options -> Res value)
  : Collection -> M Arg (list value) :=
  collection_serialize_with (call_toJSON (hooked_call entity_represent)).

Definition hooked_collection
  (entity_represent : Entity -> value -> Options -> Res value)
  : Collection -> M Options (list value) :=
  collection_serialize_with (hooked_toJSON entity_represent).

(** The base serialization of a model, when the hook of every relation
    answers with its own base serialization. *)
Definition raw (this : Model) : M Options value :=
  fun opts => (Ok (serialize (truthy (opt_shallow opts)) this), opts).

End Bookshelf.

(** ** The vocabulary of the properties *)

(** [Unsafe E M r]: [r] is a loaded relation exposed by a property without
    [using], on [M] itself or on a loaded relation reached from [M] through
    properties that do have [using]. *)
Inductive Unsafe : Entity -> Model -> string -> Prop :=
| Unsafe_here (E : Entity) (M : Model) rels r p :
    relations M = Some rels -> In r (keys rels) ->
    In p (properties E) -> key p = r -> using_ p = None ->
    Unsafe E M r
| Unsafe_below (E : Entity) (M : Model) rels r p U sub r' :
    relations M = Some rels -> In r (keys rels) ->
    In p (properties E) -> key p = r -> using_ p = Some U ->
    lookup r rels = Some sub -> Unsafe U sub r' ->
    Unsafe E M r'.

(** Every loaded relation of [M] is absent from the keys of [E] or matched
    only by properties that have [using] (one level, no recursion). *)
Definition top_level_clean (E : Entity) (M : Model) : bool :=
  forallb (fun r =>
    forallb (fun p => negb (r =? key p) || isSome (using_ p)) (properties E))
    (keys (Bookshelf.loaded M)).

(** No loaded relation of [M] is named by a property of [E]. *)
Definition undeclared (E : Entity) (M : Model) : bool :=
  forallb (fun r => forallb (fun p => negb (r =? key p)) (properties E))
    (keys (Bookshelf.loaded M)).

(** The options carry no truthy [shallow]: an object whose [shallow] is
    falsy, no argument at all, or a primitive. *)
Definition lacks_shallow (options : Arg) : bool :=
  match options with
  | ArgObject o => negb (truthy (opt_shallow o))
  | ArgUndefined | ArgPrimitive => true
  | ArgNull => false
  end.

(** Some loaded relation of [M] has the name of a property of [E] that
    lacks [using]. *)
Definition exposed_without_using (E : Entity) (M : Model) : Prop :=
  exists r p, In r (keys (Bookshelf.loaded M)) /\ In p (properties E)
              /\ key p = r /\ using_ p = None.

(** The name under which a rule emits. *)
Definition output_name (rule : Property) : string :=
  match as_ rule with
  | Some name => name
  | None => key rule
  end.

(** The first non-empty candidate. *)
Fixpoint first_nonempty {A : Type} (candidates : list (option A)) : option A :=
  match candidates with
  | [] => None
  | Some a :: _ => Some a
  | None :: rest => first_nonempty rest
  end.

(** [options] with its [safe] property set (or removed). *)
Definition set_safe (s : option value) (o : Options) : Options :=
  mkOptions (opt_entity o) (opt_with o) (opt_using o) (opt_shallow o) s
    (opt_entityRoot o) (opt_flags o).

(** Every object reachable through loaded relations has a [relations]
    mapping (as every Bookshelf model has). *)
Fixpoint has_relations (m : Model) : bool :=
  match relations m with
  | None => false
  | Some rels => forallb (fun kr => has_relations (snd kr)) rels
  end.

Definition all_have_relations (model : option Model) : bool :=
  match model with
  | None => true
  | Some m => has_relations m
  end.

Module AutoLoad.

(** The relation is not already loaded on the source object. *)
Definition not_loaded (sourceObject : option Model) (k : string) : bool :=
  match sourceObject with
  | None => true
  | Some m => negb (has (relations m) k)
  end.

(** The corresponding attribute exists (non-empty) on the object: read, as
    the code reads it, as the truthiness of the property of that name on
    the object itself. *)
Definition attribute_exists (sourceObject : option Model) (k : string) : bool :=
  match sourceObject with
  | None => false
  | Some m => truthy_at m k
  end.

(** The already-loaded sub-object, or none. *)
Definition loaded_sub (sourceObject : option Model) (k : string) : option Model :=
  match sourceObject with
  | None => None
  | Some m => lookup k (Bookshelf.loaded m)
  end.

(** The auto-load algorithm in the words of the specification (section
    4.5): for every rule with a nested [using], if the relation is not
    already loaded on the source object and the corresponding attribute
    exists on it, add [pathPrefix + key]; regardless, recurse into the nested
    specification with the loaded sub-object (or none) and
    [pathPrefix + key + "."], unioning the results. *)
Fixpoint detectMissing (entitySpec : Entity) (sourceObject : option Model)
  (pathPrefix : string) : list string :=
  flat_map (fun rule =>
    match using_ rule with
    | None => []
    | Some nestedSpec =>
        (if not_loaded sourceObject (key rule) && attribute_exists sourceObject (key rule)
         then [(pathPrefix ++ key rule)%string] else [])
        ++ detectMissing nestedSpec (loaded_sub sourceObject (key rule))
             (pathPrefix ++ key rule ++ ".")%string
    end) (properties entitySpec).

(** A path, unless it is the empty string. *)
Definition path (p : string) : list string :=
  if p =? "" then [] else [p].

(** The same algorithm with what the code does where there is no source
    object: every nested rule is then requested; an empty path never is. *)
Fixpoint detectMissing_absent (entitySpec : Entity) (sourceObject : option Model)
  (pathPrefix : string) : list string :=
  flat_map (fun rule =>
    match using_ rule with
    | None => []
    | Some nestedSpec =>
        (match sourceObject with
         | None => path (pathPrefix ++ key rule)%string
         | Some _ =>
             if not_loaded sourceObject (key rule)
                && attribute_exists sourceObject (key rule)
             then path (pathPrefix ++ key rule)%string else []
         end)
        ++ detectMissing_absent nestedSpec (loaded_sub sourceObject (key rule))
             (pathPrefix ++ key rule ++ ".")%string
    end) (properties entitySpec).

End AutoLoad.

(** ** Sample data *)

Module Sample.

Definition CityEntity : Entity := mkEntity [expose "name"].

(** [{ street: true, city: { using: CityEntity } }] *)
Definition AddressEntity : Entity :=
  mkEntity [expose "street"; nested "city" CityEntity].

(** [{ street: true, city: true }]: the city has no [using]. *)
Definition OpenAddressEntity : Entity :=
  mkEntity [expose "street"; expose "city"].

(** [{ street: true }] *)
Definition FlatAddressEntity : Entity := mkEntity [expose "street"].

(** [{ id: true, address: { using: AddressEntity } }] *)
Definition UserEntity : Entity :=
  mkEntity [expose "id"; nested "address" AddressEntity].

(** [{ id: true, address: { using: OpenAddressEntity } }] *)
Definition UserOpenAddressEntity : Entity :=
  mkEntity [expose "id"; nested "address" OpenAddressEntity].

(** [{ id: true, address: { using: FlatAddressEntity } }] *)
Definition UserFlatAddressEntity : Entity :=
  mkEntity [expose "id"; nested "address" FlatAddressEntity].

(** [{ id: true, address: true }]: the address has no [using]. *)
Definition OpenUserEntity : Entity :=
  mkEntity [expose "id"; expose "address"].

(** An entity that exposes nothing. *)
Definition EmptyEntity : Entity := mkEntity [].

Definition paris : Model :=
  mkModel true None [("name", VStr "Paris")] [] (Some []).

(** An address whose city is loaded. *)
Definition address_with_city : Model :=
  mkModel true None [("street", VStr "1 Main St")]
    [("city", VFun "city")] (Some [("city", paris)]).

(** An address whose city is not loaded. *)
Definition address : Model :=
  mkModel true None [("street", VStr "1 Main St")]
    [("city", VFun "city")] (Some []).

(** A user with nothing loaded, whose model declares an address. *)
Definition user : Model :=
  mkModel true None [("id", VNum 1)] [("address", VFun "address")] (Some []).

(** The user once its address is loaded. *)
Definition user_with_address : Model :=
  mkModel true None [("id", VNum 1)] [("address", VFun "address")]
    (Some [("address", address)]).

(** The user with its address and the address's city loaded. *)
Definition user_with_city : Model :=
  mkModel true None [("id", VNum 1)] [("address", VFun "address")]
    (Some [("address", address_with_city)]).

(** A user with nothing loaded that also stores a value under the name of
    the relation in its attributes. *)
Definition user_with_address_key : Model :=
  mkModel true None [("id", VNum 1); ("address", VNum 12)]
    [("address", VFun "address")] (Some []).

(** A user whose model object has no [address] property, though an
    [address] is stored among its attributes. *)
Definition user_without_address_member : Model :=
  mkModel true None [("id", VNum 1); ("address", VNum 12)] [] (Some []).

(** Another user, with nothing loaded. *)
Definition other_user : Model :=
  mkModel true None [("id", VNum 2)] [("address", VFun "address")] (Some []).

(** [{ safe: false }] *)
Definition safe_false : Options := set_safe (Some (VBool false)) empty_options.

(** [{ entity: e }] *)
Definition with_entity (e : Entity) : Options :=
  mkOptions (Some e) None None VUndefined None VUndefined [].

(** [{ id: true, location: { as: "hometown", if: (user, options) =>
    options.includeLocation } }] *)
Definition TravellerEntity : Entity :=
  mkEntity
    [expose "id";
     mkProperty "location" None (Some "hometown")
       (Some (fun _ flags =>
                match lookup "includeLocation" flags with
                | Some v => truthy v
                | None => false
                end))
       None].

(** [{ id: 1, location: "SF" }] *)
Definition traveller : Model :=
  mkModel true None [("id", VNum 1); ("location", VStr "SF")] [] (Some []).

(** [{ includeLocation: true }] *)
Definition include_location : Options :=
  mkOptions None None None VUndefined None VUndefined [("includeLocation", VBool true)].

Definition users (ms : list Model) : Collection := mkCollection true None ms.

(** An address that also stores a door code, which no entity exposes. *)
Definition private_address : Model :=
  mkModel true None [("street", VStr "1 Main St"); ("door_code", VStr "4711")]
    [] (Some []).

(** A user that also stores a password, with that address loaded. *)
Definition private_user : Model :=
  mkModel true None [("id", VNum 1); ("password", VStr "hunter2")]
    [("address", VFun "address")] (Some [("address", private_address)]).

End Sample.

(** ** Further vocabulary *)

(** Every relation that a rule with [using] names is loaded, on the model
    and on every loaded relation below it. *)
Fixpoint fully_loaded (E : Entity) (m : Model) {struct E} : bool :=
  forallb (fun p =>
    match using_ p with
    | None => true
    | Some u =>
        match relations m with
        | None => false
        | Some rels =>
            match lookup (key p) rels with
            | Some sub => fully_loaded u sub
            | None => false
            end
        end
    end) (properties E).

(** Some rule of the entity has [using]. *)
Definition has_using (E : Entity) : bool :=
  existsb (fun p => isSome (using_ p)) (properties E).

(** The argument is an object. *)
Definition is_object (options : Arg) : bool :=
  match options with
  | ArgObject _ => true
  | _ => false
  end.

(** * Properties *)

(** ** Objects, loops and completions *)

Lemma lookup_In {A : Type} (k : string) (o : list (string * A)) (v : A) :
  lookup k o = Some v -> In (k, v) o.
Proof.
  induction o as [|[k' v'] o IH]; simpl; [discriminate|].
  destruct (String.eqb_spec k' k) as [->|_].
  - intros [= ->]. now left.
  - intros H. right. now apply IH.
Qed.

Lemma lookup_keys {A : Type} (k : string) (o : list (string * A)) :
  In k (keys o) -> exists v, lookup k o = Some v.
Proof.
  induction o as [|[k' v'] o IH]; simpl; [intros []|].
  destruct (String.eqb_spec k' k) as [->|Hne].
  - intros _. now exists v'.
  - intros [Heq|Hin]; [contradiction|]. now apply IH.
Qed.

Lemma lookup_not_keys {A : Type} (k : string) (o : list (string * A)) :
  ~ In k (keys o) -> lookup k o = None.
Proof.
  induction o as [|[k' v'] o IH]; simpl; [reflexivity|].
  intros Hn. destruct (String.eqb_spec k' k) as [->|_].
  - exfalso. apply Hn. now left.
  - apply IH. intros Hin. apply Hn. now right.
Qed.

Lemma In_keys {A : Type} (k : string) (v : A) (o : list (string * A)) :
  In (k, v) o -> In k (keys o).
Proof. intros H. unfold keys. change k with (fst (k, v)). now apply in_map. Qed.

Lemma res_unit_cases (r : Res unit) : r = Ok tt \/ exists e, r = Throw e.
Proof. destruct r as [[]|e]; [now left | right; now exists e]. Qed.

Lemma forEach_cons {A : Type} (x : A) (xs : list A) (f : A -> Res unit) :
  forEach (x :: xs) f = res_bind (f x) (fun _ => forEach xs f).
Proof. reflexivity. Qed.

Lemma forEach_Ok {A : Type} (xs : list A) (f : A -> Res unit) :
  (forall x, In x xs -> f x = Ok tt) -> forEach xs f = Ok tt.
Proof.
  induction xs as [|x xs IH]; intros H; [reflexivity|].
  rewrite forEach_cons, (H x (or_introl eq_refl)). simpl.
  apply IH. intros y Hy. apply H. now right.
Qed.

Lemma forEach_Throw_inv {A : Type} (xs : list A) (f : A -> Res unit) (e : Error) :
  forEach xs f = Throw e -> exists x, In x xs /\ f x = Throw e.
Proof.
  induction xs as [|x xs IH]; [discriminate|].
  rewrite forEach_cons. destruct (f x) as [[]|e'] eqn:Hx; simpl.
  - intros H. destruct (IH H) as (y & Hy & Hfy). exists y. split; [now right|assumption].
  - intros [= ->]. exists x. split; [now left|assumption].
Qed.

Lemma forEach_Throw_intro {A : Type} (xs : list A) (f : A -> Res unit) (x : A) (e : Error) :
  In x xs -> f x = Throw e -> exists e', forEach xs f = Throw e'.
Proof.
  intros Hin Hx. destruct (res_unit_cases (forEach xs f)) as [Hok|[e' He']].
  - exfalso. revert Hok. induction xs as [|y ys IH]; [destruct Hin|].
    rewrite forEach_cons. destruct Hin as [->|Hin].
    + rewrite Hx. discriminate.
    + destruct (f y) as [[]|]; simpl; [now apply IH | discriminate].
  - now exists e'.
Qed.

Lemma forEach_Ok_inv {A : Type} (xs : list A) (f : A -> Res unit) :
  forEach xs f = Ok tt -> forall x, In x xs -> f x = Ok tt.
Proof.
  intros Hok x Hin. destruct (res_unit_cases (f x)) as [H|[e He]]; [assumption|].
  destruct (forEach_Throw_intro xs f x e Hin He) as [e' He']. congruence.
Qed.

(** ** Induction over nested entities and over loaded relations *)

Lemma Entity_nested_ind (P : Entity -> Prop) :
  (forall ps, (forall p u, In p ps -> using_ p = Some u -> P u) -> P (mkEntity ps)) ->
  forall e, P e.
Proof.
  intros H. fix IH 1. intros [ps]. apply H.
  induction ps as [|q qs IHqs]; intros p u Hin Hu.
  - destruct Hin.
  - destruct Hin as [<-|Hin].
    + destruct q as [k [u'|] a i v]; simpl in Hu; [|discriminate].
      injection Hu as <-. apply IH.
    + exact (IHqs p u Hin Hu).
Qed.

Lemma Model_nested_ind (P : Model -> Prop) :
  (forall m, (forall rels k sub, relations m = Some rels -> In (k, sub) rels -> P sub) -> P m) ->
  forall m, P m.
Proof.
  intros H. fix IH 1. intros [s d a ms [rels|]]; apply H; simpl.
  - intros rels' k sub [= <-]. clear H.
    induction rels as [|[k' sub'] rels IHrels]; intros Hin.
    + destruct Hin.
    + destruct Hin as [[= <- <-]|Hin]; [apply IH | exact (IHrels Hin)].
  - intros rels k sub Hn. discriminate.
Qed.

(** ** The recursive safety check *)

Lemma performSafetyCheck_eq (E : Entity) (M : Model) :
  Plugin.performSafetyCheck E M =
  forEach (keys (Bookshelf.loaded M)) (fun relation =>
    forEach (properties E) (fun property =>
      if relation =? key property then
        match using_ property with
        | None => Throw (JsError (unsafe_message relation))
        | Some u =>
            match lookup relation (Bookshelf.loaded M) with
            | Some sub => Plugin.performSafetyCheck u sub
            | None => Throw (TypeError "Cannot read property 'relations' of undefined")
            end
        end
      else Ok tt)).
Proof. destruct E. reflexivity. Qed.

Lemma loaded_Some (M : Model) rels : relations M = Some rels -> Bookshelf.loaded M = rels.
Proof. unfold Bookshelf.loaded. now intros ->. Qed.

Lemma loaded_keys_inv (M : Model) (r : string) :
  In r (keys (Bookshelf.loaded M)) ->
  exists rels, relations M = Some rels /\ In r (keys rels).
Proof.
  unfold Bookshelf.loaded. destruct (relations M) as [rels|]; [|intros []].
  intros H. now exists rels.
Qed.

(** A throw of the check is the unsafe-relation error, and names a relation
    that is exposed without [using] at some depth. *)
Lemma performSafetyCheck_sound (E : Entity) :
  forall M e, Plugin.performSafetyCheck E M = Throw e ->
  exists r, Unsafe E M r /\ e = JsError (unsafe_message r).
Proof.
  induction E as [ps IH] using Entity_nested_ind. intros M e.
  rewrite performSafetyCheck_eq. cbn [properties].
  intros H. apply forEach_Throw_inv in H as (relation & Hrel & H).
  apply forEach_Throw_inv in H as (p & Hp & H).
  destruct (loaded_keys_inv M relation Hrel) as (rels & Hrels & Hin).
  rewrite (loaded_Some M rels Hrels) in H.
  destruct (String.eqb_spec relation (key p)) as [Heq|_]; [|discriminate].
  destruct (using_ p) as [u|] eqn:Hu.
  - destruct (lookup_keys relation rels Hin) as [sub Hsub]. rewrite Hsub in H.
    destruct (IH p u Hp Hu sub e H) as (r & Hr & He).
    exists r. split; [|assumption].
    eapply Unsafe_below; eauto.
  - injection H as <-. exists relation. split; [|reflexivity].
    eapply Unsafe_here; eauto.
Qed.

(** An unsafe relation makes the check throw. *)
Lemma performSafetyCheck_complete (E : Entity) (M : Model) (r : string) :
  Unsafe E M r -> exists e, Plugin.performSafetyCheck E M = Throw e.
Proof.
  induction 1 as [E M rels r p Hrels Hin Hp Hkey Hu
                 |E M rels r p U sub r' Hrels Hin Hp Hkey Hu Hsub _ [e IH]];
    rewrite performSafetyCheck_eq, (loaded_Some M rels Hrels).
  - destruct (forEach_Throw_intro (properties E) (fun property =>
      if r =? key property then
        match using_ property with
        | None => Throw (JsError (unsafe_message r))
        | Some u =>
            match lookup r rels with
            | Some sub => Plugin.performSafetyCheck u sub
            | None => Throw (TypeError "Cannot read property 'relations' of undefined")
            end
        end
      else Ok tt) p (JsError (unsafe_message r)) Hp) as [e' He'].
    { rewrite Hkey, String.eqb_refl, Hu. reflexivity. }
    eapply forEach_Throw_intro; [exact Hin | exact He'].
  - destruct (forEach_Throw_intro (properties E) (fun property =>
      if r =? key property then
        match using_ property with
        | None => Throw (JsError (unsafe_message r))
        | Some u =>
            match lookup r rels with
            | Some sub => Plugin.performSafetyCheck u sub
            | None => Throw (TypeError "Cannot read property 'relations' of undefined")
            end
        end
      else Ok tt) p e Hp) as [e' He'].
    { rewrite Hkey at 1. rewrite String.eqb_refl, Hu, Hsub. exact IH. }
    eapply forEach_Throw_intro; [exact Hin | exact He'].
Qed.

(** The check either passes, or throws the error of some unsafe relation. *)
Lemma performSafetyCheck_spec (E : Entity) (M : Model) :
  ((forall r, ~ Unsafe E M r) /\ Plugin.performSafetyCheck E M = Ok tt)
  \/ (exists r, Unsafe E M r
                /\ Plugin.performSafetyCheck E M = Throw (JsError (unsafe_message r))).
Proof.
  destruct (res_unit_cases (Plugin.performSafetyCheck E M)) as [Hok|[e He]].
  - left. split; [|assumption]. intros r Hr.
    destruct (performSafetyCheck_complete E M r Hr) as [e He]. congruence.
  - right. destruct (performSafetyCheck_sound E M e He) as (r & Hr & ->).
    now exists r.
Qed.

(** ** [represent] of the plugin *)

Lemma Model_represent_eq er base (E : Entity) (options : Arg) (w : Plugin.World Model) :
  Plugin.Model_represent er base (Some E) options w =
  (res_bind (Plugin.check_enabled (entitySafeMode (Plugin.this w)) (default_arg options))
     (fun enabled =>
      res_bind (if enabled : bool then Plugin.performSafetyCheck E (Plugin.this w) else Ok tt)
        (fun _ =>
         res_bind (base (Plugin.this w) (default_arg options))
           (fun json => er E json (default_arg options)))), w).
Proof.
  unfold Plugin.Model_represent, bind, get, lift, ret.
  destruct (Plugin.check_enabled _ _) as [[|]|]; simpl; try reflexivity.
  - destruct (Plugin.performSafetyCheck _ _) as [[]|]; simpl; [|reflexivity].
    destruct (base _ _); reflexivity.
  - destruct (base _ _); reflexivity.
Qed.

Lemma Collection_represent_eq er cbase (E : Entity) (options : Arg)
  (w : Plugin.World Collection) :
  Plugin.Collection_represent er cbase (Some E) options w =
  (res_bind (Plugin.check_enabled (model_entitySafeMode (Plugin.this w)) (default_arg options))
     (fun enabled =>
      res_bind (if enabled : bool
                then forEach (models (Plugin.this w))
                       (fun model => Plugin.performSafetyCheck E model)
                else Ok tt)
        (fun _ =>
         res_bind (cbase (Plugin.this w) (default_arg options))
           (fun json => er E json (default_arg options)))), w).
Proof.
  unfold Plugin.Collection_represent, bind, get, lift, ret.
  destruct (Plugin.check_enabled _ _) as [[|]|]; simpl; try reflexivity.
  - destruct (forEach _ _) as [[]|]; simpl; [|reflexivity].
    destruct (cbase _ _); reflexivity.
  - destruct (cbase _ _); reflexivity.
Qed.

Lemma check_enabled_on (options : Arg) :
  lacks_shallow options = true ->
  Plugin.check_enabled true (default_arg options) = Ok true.
Proof.
  destruct options as [o| | |]; simpl; try discriminate; try reflexivity.
  intros ->. reflexivity.
Qed.

Lemma exposed_is_unsafe (E : Entity) (M : Model) :
  exposed_without_using E M -> exists r, Unsafe E M r.
Proof.
  intros (r & p & Hr & Hp & Hk & Hu).
  destruct (loaded_keys_inv M r Hr) as (rels & Hrels & Hin).
  exists r. eapply Unsafe_here; eauto.
Qed.

Lemma undeclared_safe (E : Entity) (M : Model) :
  undeclared E M = true -> forall r, ~ Unsafe E M r.
Proof.
  unfold undeclared. intros Hu r' Hr'.
  assert (exists r p, In r (keys (Bookshelf.loaded M)) /\ In p (properties E) /\ key p = r)
    as (r & p & Hr & Hp & Hk).
  { destruct Hr' as [E M rels r p Hrels Hin Hp Hk _
                    |E M rels r p U sub r' Hrels Hin Hp Hk _ _ _];
      exists r, p; rewrite (loaded_Some M rels Hrels); auto. }
  rewrite forallb_forall in Hu. specialize (Hu r Hr).
  rewrite forallb_forall in Hu. specialize (Hu p Hp).
  rewrite Hk, String.eqb_refl in Hu. discriminate.
Qed.

(** ** The whitelist of json-entity *)

Lemma assign_keys {A : Type} (k : string) (v : A) (o : list (string * A)) (name : string) :
  In name (keys (assign k v o)) -> name = k \/ In name (keys o).
Proof.
  induction o as [|[k' v'] o IH]; simpl.
  - intros [<-|[]]. now left.
  - destruct (String.eqb_spec k' k) as [->|_]; simpl.
    + intros [<-|H]; [now left | right; now right].
    + intros [<-|H]; [right; now left|].
      destruct (IH H) as [->|H']; [now left | right; now right].
Qed.

(** Every key of a represented object is the output name of a rule. *)
Lemma represent_object_keys (E : Entity) flags (data : value) (name : string) :
  In name (keys (JsonEntity.fields_of (JsonEntity.represent_object E flags data))) ->
  exists rule, In rule (properties E) /\ output_name rule = name.
Proof.
  destruct E as [ps]. cbn [JsonEntity.represent_object JsonEntity.fields_of properties].
  assert (forall out : list (string * value),
            In name (keys (fold_left (fun out rule =>
              let included :=
                match if_ rule with
                | Some predicate => predicate data flags
                | None => true
                end in
              if included then
                let v :=
                  match using_ rule with
                  | Some u =>
                      match lookup (key rule) (JsonEntity.fields_of data) with
                      | Some (VArr items) =>
                          VArr (filter (fun r => negb (JsonEntity.empty_or_falsy r))
                                  (map (JsonEntity.represent_object u flags) items))
                      | Some (VObj fields) => JsonEntity.represent_object u flags (VObj fields)
                      | _ => VUndefined
                      end
                  | None =>
                      match value_ rule with
                      | Some f => f data flags
                      | None =>
                          match lookup (key rule) (JsonEntity.fields_of data) with
                          | Some a => a
                          | None => VUndefined
                          end
                      end
                  end in
                match v with
                | VUndefined => out
                | _ => assign (match as_ rule with Some name => name | None => key rule end) v out
                end
              else out) ps out)) ->
            In name (keys out) \/ exists rule, In rule ps /\ output_name rule = name) as H.
  { induction ps as [|q qs IH]; intros out; simpl; [now left|].
    intros Hin. apply IH in Hin. destruct Hin as [Hin|(rule & Hr & Hn)].
    - assert (In name (keys out) \/ name = output_name q) as [Ho| ->].
      { destruct (match if_ q with Some predicate => predicate data flags | None => true end);
          [|now left].
        match type of Hin with
        | In _ (keys (match ?v with _ => _ end)) => destruct v
        end; try (now left);
          apply assign_keys in Hin; destruct Hin as [->|Hin]; auto. }
      + now left.
      + right. exists q. split; [now left | reflexivity].
    - right. exists rule. split; [now right | assumption]. }
  intros Hin. destruct (H [] Hin) as [[]|Hex]. exact Hex.
Qed.

Lemma represent_object_whitelist (E : Entity) flags (data : value) (r : string) :
  (forall rule, In rule (properties E) -> output_name rule <> r) ->
  lookup r (JsonEntity.fields_of (JsonEntity.represent_object E flags data)) = None.
Proof.
  intros Hno. apply lookup_not_keys. intros Hin.
  destruct (represent_object_keys E flags data r Hin) as (rule & Hr & Hn).
  exact (Hno rule Hr Hn).
Qed.

(** ** [represent] and the safety check *)

(** C1, as amended. With [entitySafeMode] enabled and no truthy [shallow]
    in the options, [Model.represent(E, options)] throws the unsafe-relation
    error whenever some loaded relation of the model has the name of a
    property of [E] without [using]; the error names a relation that is
    exposed without [using] on the model or on a loaded relation below it.
    The same error is thrown whenever a relation is unsafe at any depth,
    also when the top level is clean. When no relation is unsafe at any
    depth nothing is thrown by the check and the result is the entity's
    representation of the base serialization. Loaded relations that no
    property names never cause the error, and the represented object has no
    property under a name that no rule of [E] emits. *)
Theorem represent_safety_check er base (E : Entity) (M : Model) (options : Arg)
  (loads : list (list string)) :
  entitySafeMode M = true ->
  lacks_shallow options = true ->
  (exposed_without_using E M ->
   exists r, Unsafe E M r
     /\ Plugin.Model_represent er base (Some E) options (Plugin.mkWorld M loads)
        = (Throw (JsError (unsafe_message r)), Plugin.mkWorld M loads))
  /\ ((forall r, ~ Unsafe E M r) ->
      Plugin.Model_represent er base (Some E) options (Plugin.mkWorld M loads)
      = (res_bind (base M (default_arg options))
           (fun json => er E json (default_arg options)), Plugin.mkWorld M loads))
  /\ (undeclared E M = true ->
      Plugin.Model_represent er base (Some E) options (Plugin.mkWorld M loads)
      = (res_bind (base M (default_arg options))
           (fun json => er E json (default_arg options)), Plugin.mkWorld M loads))
  /\ (forall r v w,
        (forall rule, In rule (properties E) -> output_name rule <> r) ->
        Plugin.Model_represent JsonEntity.represent_arg base (Some E) options
          (Plugin.mkWorld M loads) = (Ok v, w) ->
        lookup r (JsonEntity.fields_of v) = None)
  /\ ((exists r, Unsafe E M r) ->
      exists r, Unsafe E M r
        /\ Plugin.Model_represent er base (Some E) options (Plugin.mkWorld M loads)
           = (Throw (JsError (unsafe_message r)), Plugin.mkWorld M loads)).
Proof.
  intros Hsafe Hshallow.
  assert (forall er', (forall r, ~ Unsafe E M r) ->
            Plugin.Model_represent er' base (Some E) options (Plugin.mkWorld M loads)
            = (res_bind (base M (default_arg options))
                 (fun json => er' E json (default_arg options)), Plugin.mkWorld M loads))
    as Hclean.
  { intros er' Hno. rewrite Model_represent_eq. cbn [Plugin.this].
    rewrite Hsafe, (check_enabled_on options Hshallow). cbn [res_bind].
    destruct (performSafetyCheck_spec E M) as [[_ ->]|(r & Hr & _)]; [reflexivity|].
    destruct (Hno r Hr). }
  repeat split.
  - intros Hex. rewrite Model_represent_eq. cbn [Plugin.this].
    rewrite Hsafe, (check_enabled_on options Hshallow). cbn [res_bind].
    destruct (performSafetyCheck_spec E M) as [[Hno _]|(r & Hr & ->)].
    + destruct (exposed_is_unsafe E M Hex) as [r Hr]. destruct (Hno r Hr).
    + exists r. split; [assumption | reflexivity].
  - apply Hclean.
  - intros Hu. apply Hclean. now apply undeclared_safe.
  - intros r v w Hno. rewrite Model_represent_eq. cbn [Plugin.this].
    destruct (Plugin.check_enabled _ _) as [enabled|]; [|discriminate]. cbn [res_bind].
    destruct (if enabled then _ else _) as [[]|]; [|discriminate]. cbn [res_bind].
    destruct (base M (default_arg options)) as [json|]; [|discriminate]. cbn [res_bind].
    unfold JsonEntity.represent_arg. intros [= <- _].
    unfold JsonEntity.represent. destruct json; try (now apply represent_object_whitelist).
    reflexivity.
  - intros [r0 Hr0]. rewrite Model_represent_eq. cbn [Plugin.this].
    rewrite Hsafe, (check_enabled_on options Hshallow). cbn [res_bind].
    destruct (performSafetyCheck_spec E M) as [[Hno _]|(r & Hr & ->)].
    + destruct (Hno r0 Hr0).
    + exists r. split; [assumption | reflexivity].
Qed.

Lemma represent_safety_check_witness :
  entitySafeMode Sample.user_with_city = true
  /\ lacks_shallow (ArgObject empty_options) = true
  /\ top_level_clean Sample.UserOpenAddressEntity Sample.user_with_city = true
  /\ exists r, Unsafe Sample.UserOpenAddressEntity Sample.user_with_city r
       /\ Plugin.Model_represent JsonEntity.represent_arg Bookshelf.Model_toJSON
            (Some Sample.UserOpenAddressEntity) (ArgObject empty_options)
            (Plugin.mkWorld Sample.user_with_city [])
          = (Throw (JsError (unsafe_message r)), Plugin.mkWorld Sample.user_with_city []).
Proof.
  split; [reflexivity|]. split; [reflexivity|]. split; [reflexivity|].
  apply (proj2 (proj2 (proj2 (proj2
           (represent_safety_check JsonEntity.represent_arg Bookshelf.Model_toJSON
              Sample.UserOpenAddressEntity Sample.user_with_city (ArgObject empty_options) []
              eq_refl eq_refl))))).
  exists "city".
  apply (Unsafe_below Sample.UserOpenAddressEntity Sample.user_with_city
           [("address", Sample.address_with_city)] "address"
           (nested "address" Sample.OpenAddressEntity) Sample.OpenAddressEntity
           Sample.address_with_city "city");
    [reflexivity | now left | right; now left | reflexivity | reflexivity | reflexivity |].
  apply (Unsafe_here Sample.OpenAddressEntity Sample.address_with_city
           [("city", Sample.paris)] "city" (expose "city"));
    [reflexivity | now left | right; now left | reflexivity | reflexivity].
Defined.

(** C1, as stated, fails: the address is the only loaded relation of the
    user and its property has [using], yet [represent] throws, because the
    check goes on into the loaded address, whose city is exposed without
    [using]. *)
Lemma clean_top_level_still_throws :
  entitySafeMode Sample.user_with_city = true
  /\ lacks_shallow (ArgObject empty_options) = true
  /\ top_level_clean Sample.UserOpenAddressEntity Sample.user_with_city = true
  /\ fst (Plugin.Model_represent JsonEntity.represent_arg Bookshelf.Model_toJSON
            (Some Sample.UserOpenAddressEntity) (ArgObject empty_options)
            (Plugin.mkWorld Sample.user_with_city []))
     = Throw (JsError (unsafe_message "city")).
Proof. repeat split; reflexivity. Qed.

(** C2. Without an entity, [Model.represent] returns [undefined] and
    [Collection.represent] returns the empty array, whatever the options
    are, and nothing is thrown; the same holds for both definitions of
    src/index.js. *)
Theorem represent_without_entity er base cbase er' base' cbase'
  (M : Model) (C : Collection) (options : Arg) (o : Options)
  (wM : Plugin.World Model) (wC : Plugin.World Collection) :
  Plugin.Model_represent er base None options wM = (Ok VUndefined, wM)
  /\ Plugin.Collection_represent er cbase None options wC = (Ok (VArr []), wC)
  /\ IndexA.Model_represent er' base' M None o = (Ok VUndefined, o)
  /\ IndexB.Model_represent er' base' M None o = (Ok VUndefined, o)
  /\ IndexB.Collection_represent er' cbase' C None o = (Ok (VArr []), o).
Proof. repeat split; reflexivity. Qed.

(** C3, as amended. The plugin never reads [options.safe]: with
    [entitySafeMode] enabled and no truthy [shallow], [Model.represent]
    runs the relation check whatever [safe] is, and throws what the check
    throws, also with [safe: false]; [present], which adds [safe: false]
    to the options, rejects with the same error. The check is skipped only
    when [entitySafeMode] is off or [shallow] is truthy. *)
Theorem safe_option_not_consulted er base load (E : Entity) (M : Model)
  (o : Options) (s : option value) (loads : list (list string)) (e : Error) :
  entitySafeMode M = true ->
  truthy (opt_shallow o) = false ->
  Plugin.performSafetyCheck E M = Throw e ->
  Plugin.Model_represent er base (Some E) (ArgObject (set_safe s o)) (Plugin.mkWorld M loads)
  = (Throw e, Plugin.mkWorld M loads)
  /\ (forall paths,
        opt_entity o = Some E ->
        Plugin.detectRelationsToLoad (Some E) (Some M) "" = Ok paths ->
        load paths M = (Ok tt, M) ->
        Plugin.Model_present er base load (ArgObject o) (Plugin.mkWorld M loads)
        = (Throw e, Plugin.mkWorld M (loads ++ [paths])))
  /\ (forall M' o',
        entitySafeMode M' = false \/ truthy (opt_shallow o') = true ->
        Plugin.Model_represent er base (Some E) (ArgObject (set_safe s o')) (Plugin.mkWorld M' loads)
        = (res_bind (base M' (ArgObject (set_safe s o')))
             (fun json => er E json (ArgObject (set_safe s o'))), Plugin.mkWorld M' loads)).
Proof.
  intros Hsafe Hshallow Hcheck. repeat split.
  - rewrite Model_represent_eq. cbn. rewrite Hsafe. cbn. rewrite Hshallow. cbn.
    rewrite Hcheck. reflexivity.
  - intros paths He Hdetect Hload.
    unfold Plugin.Model_present. cbn [default_arg ensure_object].
    unfold bind at 1. cbn [get]. rewrite He. cbn [orElse].
    unfold bind at 1. cbn [get]. unfold bind at 1. unfold lift at 1.
    cbn [Plugin.this]. rewrite Hdetect.
    unfold bind at 1. unfold Plugin.load_if_truthy, Plugin.load. cbn [truthy Plugin.this Plugin.loads].
    rewrite Hload. rewrite Model_represent_eq. cbn. rewrite Hsafe. cbn.
    rewrite Hshallow. cbn. rewrite Hcheck. reflexivity.
  - intros M' o' Hoff. rewrite Model_represent_eq.
    cbn [Plugin.this default_arg]. unfold Plugin.check_enabled.
    destruct Hoff as [->|Hsh]; [reflexivity|].
    destruct (entitySafeMode M'); [|reflexivity].
    cbn [arg_shallow set_safe opt_shallow res_bind]. rewrite Hsh. reflexivity.
Qed.

Lemma safe_option_not_consulted_witness :
  entitySafeMode Sample.user_with_address = true
  /\ truthy (opt_shallow empty_options) = false
  /\ Plugin.performSafetyCheck Sample.OpenUserEntity Sample.user_with_address
     = Throw (JsError (unsafe_message "address"))
  /\ Plugin.Model_represent JsonEntity.represent_arg Bookshelf.Model_toJSON
       (Some Sample.OpenUserEntity)
       (ArgObject (set_safe (Some (VBool false)) empty_options))
       (Plugin.mkWorld Sample.user_with_address [])
     = (Throw (JsError (unsafe_message "address")),
        Plugin.mkWorld Sample.user_with_address []).
Proof.
  split; [reflexivity|]. split; [reflexivity|]. split; [reflexivity|].
  exact (proj1 (safe_option_not_consulted JsonEntity.represent_arg Bookshelf.Model_toJSON
                  Bookshelf.load_nothing Sample.OpenUserEntity Sample.user_with_address
                  empty_options (Some (VBool false)) []
                  (JsError (unsafe_message "address")) eq_refl eq_refl eq_refl)).
Defined.

(** C3, as stated, fails: with [safe: false] in the options the check is
    still made, and the exposed address makes [represent] throw. *)
Lemma safe_false_still_checked :
  entitySafeMode Sample.user_with_address = true
  /\ opt_safe Sample.safe_false = Some (VBool false)
  /\ fst (Plugin.Model_represent JsonEntity.represent_arg Bookshelf.Model_toJSON
            (Some Sample.OpenUserEntity) (ArgObject Sample.safe_false)
            (Plugin.mkWorld Sample.user_with_address []))
     = Throw (JsError (unsafe_message "address")).
Proof. repeat split; reflexivity. Qed.

Lemma res_bind_unit (r : Res unit) : res_bind r (fun _ => Ok tt) = r.
Proof. destruct r as [[]|]; reflexivity. Qed.

(** C4. The check recurses through [using]: when a loaded relation of the
    model matches a property with a nested entity, the check is applied
    again to the loaded sub-object with that entity (for a single such
    relation and property the check is exactly the nested check); whatever
    the nested check throws makes the outer check throw, and so does a
    relation loaded on the sub-object that the nested entity exposes
    without [using]. *)
Theorem safety_check_recurses (E U : Entity) (M sub : Model) rels rels2
  (r r2 : string) (p q : Property) :
  relations M = Some rels -> In r (keys rels) -> lookup r rels = Some sub ->
  In p (properties E) -> key p = r -> using_ p = Some U ->
  relations sub = Some rels2 -> In r2 (keys rels2) ->
  In q (properties U) -> key q = r2 -> using_ q = None ->
  (exists r', Unsafe U sub r'
     /\ Plugin.performSafetyCheck U sub = Throw (JsError (unsafe_message r')))
  /\ (exists r', Unsafe E M r'
     /\ Plugin.performSafetyCheck E M = Throw (JsError (unsafe_message r')))
  /\ (forall s d a ms,
        Plugin.performSafetyCheck (mkEntity [p]) (mkModel s d a ms (Some [(r, sub)]))
        = Plugin.performSafetyCheck U sub).
Proof.
  intros Hrels Hr Hsub Hp Hkp Hup Hrels2 Hr2 Hq Hkq Huq.
  assert (Unsafe U sub r2) as Hbelow by (eapply Unsafe_here; eauto).
  assert (Unsafe E M r2) as Habove by (eapply Unsafe_below; eauto).
  repeat split.
  - destruct (performSafetyCheck_spec U sub) as [[Hno _]|Hex]; [destruct (Hno r2 Hbelow)|exact Hex].
  - destruct (performSafetyCheck_spec E M) as [[Hno _]|Hex]; [destruct (Hno r2 Habove)|exact Hex].
  - intros s d a ms. rewrite performSafetyCheck_eq. cbn.
    rewrite Hkp, !String.eqb_refl, Hup.
    now rewrite !res_bind_unit.
Qed.

Lemma safety_check_recurses_witness :
  exists r', Unsafe Sample.UserOpenAddressEntity Sample.user_with_city r'
    /\ Plugin.performSafetyCheck Sample.UserOpenAddressEntity Sample.user_with_city
       = Throw (JsError (unsafe_message r')).
Proof.
  refine (proj1 (proj2 (safety_check_recurses
            Sample.UserOpenAddressEntity Sample.OpenAddressEntity
            Sample.user_with_city Sample.address_with_city
            [("address", Sample.address_with_city)] [("city", Sample.paris)]
            "address" "city" (nested "address" Sample.OpenAddressEntity) (expose "city")
            eq_refl _ eq_refl _ eq_refl eq_refl eq_refl _ _ eq_refl eq_refl)));
    simpl; auto.
Defined.

(** ** Relation auto-detection *)

Lemma detectRelations_eq (E : Entity) (model : option Model) (prefix : string) :
  Plugin.detectRelations E model prefix =
  res_bind (reduce (fun relations property =>
      match using_ property with
      | Some u =>
          res_bind (Plugin.loaded_relation model (key property)) (fun sub =>
          res_bind (Plugin.detectRelations u sub (prefix ++ key property ++ ".")%string)
            (fun more =>
             Ok ((if Plugin.should_load model (key property)
                  then relations ++ [(prefix ++ key property)%string]
                  else relations) ++ more)))
      | None => Ok relations
      end) (properties E) [])
    (fun found => Ok (filter Boolean found)).
Proof. destruct E. reflexivity. Qed.

(** A [reduce] whose step only appends collects what each step appends. *)
Lemma reduce_collect {A B : Type} (f : list B -> A -> Res (list B)) (g : A -> list B)
  (xs : list A) :
  (forall acc x, In x xs -> f acc x = Ok (acc ++ g x)) ->
  forall init, reduce f xs init = Ok (init ++ flat_map g xs).
Proof.
  induction xs as [|x xs IH]; intros Hf init; simpl.
  - now rewrite app_nil_r.
  - rewrite (Hf init x (or_introl eq_refl)). simpl.
    rewrite IH by (intros acc y Hy; apply Hf; now right).
    now rewrite <- app_assoc.
Qed.

Lemma filter_flat_map {A B : Type} (f : B -> bool) (g : A -> list B) (xs : list A) :
  filter f (flat_map g xs) = flat_map (fun x => filter f (g x)) xs.
Proof.
  induction xs as [|x xs IH]; simpl; [reflexivity|].
  now rewrite filter_app, IH.
Qed.

Lemma flat_map_ext_on {A B : Type} (f g : A -> list B) (xs : list A) :
  (forall x, In x xs -> f x = g x) -> flat_map f xs = flat_map g xs.
Proof.
  induction xs as [|x xs IH]; intros H; simpl; [reflexivity|].
  rewrite (H x (or_introl eq_refl)), IH; [reflexivity|].
  intros y Hy. apply H. now right.
Qed.

Lemma filter_path (p : string) : filter Boolean (AutoLoad.path p) = AutoLoad.path p.
Proof.
  unfold AutoLoad.path. destruct (p =? "") eqn:Hp; simpl; [reflexivity|].
  unfold Boolean. now rewrite Hp.
Qed.

Lemma filter_singleton (p : string) : filter Boolean [p] = AutoLoad.path p.
Proof. unfold AutoLoad.path, Boolean. simpl. now destruct (p =? ""). Qed.

(** No path of the amended algorithm is empty. *)
Lemma detectMissing_absent_nonempty (E : Entity) :
  forall model prefix,
    filter Boolean (AutoLoad.detectMissing_absent E model prefix)
    = AutoLoad.detectMissing_absent E model prefix.
Proof.
  induction E as [ps IH] using Entity_nested_ind. intros model prefix.
  cbn [AutoLoad.detectMissing_absent properties].
  rewrite filter_flat_map. apply flat_map_ext_on. intros p Hp.
  destruct (using_ p) as [u|] eqn:Hu; [|reflexivity].
  rewrite filter_app, (IH p u Hp Hu). f_equal.
  destruct model as [m|]; [|apply filter_path].
  destruct (_ && _); [apply filter_path | reflexivity].
Qed.

Lemma has_relations_lookup (m : Model) rels (k : string) (sub : Model) :
  has_relations m = true -> relations m = Some rels -> lookup k rels = Some sub ->
  has_relations sub = true.
Proof.
  intros Hm Hrels Hsub. destruct m as [s d a ms rs]. simpl in *. subst rs.
  rewrite forallb_forall in Hm. exact (Hm (k, sub) (lookup_In k rels sub Hsub)).
Qed.

Lemma loaded_relation_sub (model : option Model) (k : string) :
  all_have_relations model = true ->
  Plugin.loaded_relation model k = Ok (AutoLoad.loaded_sub model k)
  /\ all_have_relations (AutoLoad.loaded_sub model k) = true.
Proof.
  destruct model as [m|]; simpl; [|now split].
  intros Hm. destruct (relations m) as [rels|] eqn:Hrels.
  - rewrite (loaded_Some m rels Hrels). split; [reflexivity|].
    destruct (lookup k rels) as [sub|] eqn:Hsub; simpl; [|reflexivity].
    exact (has_relations_lookup m rels k sub Hm Hrels Hsub).
  - destruct m as [s d a ms rs]. simpl in *. subst rs. discriminate.
Qed.

(** On objects that all have a [relations] mapping, the code computes the
    amended algorithm. *)
Lemma detectRelations_refines (E : Entity) :
  forall model prefix,
    all_have_relations model = true ->
    Plugin.detectRelations E model prefix
    = Ok (AutoLoad.detectMissing_absent E model prefix).
Proof.
  induction E as [ps IH] using Entity_nested_ind. intros model prefix Hwf.
  rewrite detectRelations_eq. cbn [properties].
  rewrite (reduce_collect _ (fun p =>
    match using_ p with
    | None => []
    | Some u =>
        (if Plugin.should_load model (key p) then [(prefix ++ key p)%string] else [])
        ++ AutoLoad.detectMissing_absent u (AutoLoad.loaded_sub model (key p))
             (prefix ++ key p ++ ".")%string
    end)).
  - cbn [res_bind app]. f_equal.
    cbn [AutoLoad.detectMissing_absent properties].
    rewrite filter_flat_map. apply flat_map_ext_on. intros p Hp.
    destruct (using_ p) as [u|] eqn:Hu; [|reflexivity].
    rewrite filter_app, detectMissing_absent_nonempty. f_equal.
    destruct model as [m|]; cbn [Plugin.should_load].
    + cbn [AutoLoad.not_loaded AutoLoad.attribute_exists].
      destruct (_ && _); [apply filter_singleton | reflexivity].
    + apply filter_singleton.
  - intros acc p Hp. destruct (using_ p) as [u|] eqn:Hu.
    + destruct (loaded_relation_sub model (key p) Hwf) as [-> Hsub].
      cbn [res_bind]. rewrite (IH p u Hp Hu _ _ Hsub). cbn [res_bind].
      destruct (Plugin.should_load model (key p)); [|reflexivity].
      now rewrite <- app_assoc.
    + now rewrite app_nil_r.
Qed.

(** A [reduce] whose step appends or throws has collected what each step
    appends, when it returns. *)
Lemma reduce_collect_returns {A B : Type} (f : list B -> A -> Res (list B))
  (g : A -> list B) (xs : list A) :
  (forall acc x, In x xs -> f acc x = Ok (acc ++ g x) \/ exists e, f acc x = Throw e) ->
  forall init found, reduce f xs init = Ok found -> found = init ++ flat_map g xs.
Proof.
  induction xs as [|x xs IH]; intros Hf init found; simpl.
  - intros [= <-]. now rewrite app_nil_r.
  - destruct (Hf init x (or_introl eq_refl)) as [->|[e ->]]; simpl; [|discriminate].
    intros H. apply IH in H; [|intros acc y Hy; apply Hf; now right].
    now rewrite H, <- app_assoc.
Qed.

Lemma loaded_relation_returns (model : option Model) (k : string) (sub : option Model) :
  Plugin.loaded_relation model k = Ok sub -> sub = AutoLoad.loaded_sub model k.
Proof.
  destruct model as [m|]; simpl; [|now intros [= <-]].
  unfold Bookshelf.loaded. destruct (relations m) as [rels|]; [|discriminate].
  now intros [= <-].
Qed.

(** Whenever the code returns, it returns the paths of the amended
    algorithm. *)
Lemma detectRelations_returns (E : Entity) :
  forall model prefix paths,
    Plugin.detectRelations E model prefix = Ok paths ->
    paths = AutoLoad.detectMissing_absent E model prefix.
Proof.
  induction E as [ps IH] using Entity_nested_ind. intros model prefix paths.
  rewrite detectRelations_eq. cbn [properties].
  destruct (reduce _ ps []) as [found|] eqn:Hreduce; [|discriminate].
  cbn [res_bind]. intros [= <-].
  apply (reduce_collect_returns _ (fun p =>
    match using_ p with
    | None => []
    | Some u =>
        (if Plugin.should_load model (key p) then [(prefix ++ key p)%string] else [])
        ++ AutoLoad.detectMissing_absent u (AutoLoad.loaded_sub model (key p))
             (prefix ++ key p ++ ".")%string
    end)) in Hreduce.
  - subst found. cbn [app AutoLoad.detectMissing_absent properties].
    rewrite filter_flat_map. apply flat_map_ext_on. intros p Hp.
    destruct (using_ p) as [u|] eqn:Hu; [|reflexivity].
    rewrite filter_app, detectMissing_absent_nonempty. f_equal.
    destruct model as [m|]; cbn [Plugin.should_load].
    + cbn [AutoLoad.not_loaded AutoLoad.attribute_exists].
      destruct (_ && _); [apply filter_singleton | reflexivity].
    + apply filter_singleton.
  - intros acc p Hp. destruct (using_ p) as [u|] eqn:Hu.
    + destruct (Plugin.loaded_relation model (key p)) as [sub|e] eqn:Hsub;
        [|right; now exists e].
      apply loaded_relation_returns in Hsub. subst sub. cbn [res_bind].
      destruct (Plugin.detectRelations u _ _) as [more|e] eqn:Hmore;
        [|right; now exists e].
      left. cbn [res_bind]. rewrite (IH p u Hp Hu _ _ _ Hmore).
      destruct (Plugin.should_load model (key p)); [|reflexivity].
      now rewrite <- app_assoc.
    + left. now rewrite app_nil_r.
Qed.

(** The algorithm of the specification requests nothing where there is no
    source object. *)
Lemma detectMissing_none (E : Entity) :
  forall prefix, AutoLoad.detectMissing E None prefix = [].
Proof.
  induction E as [ps IH] using Entity_nested_ind. intros prefix.
  cbn [AutoLoad.detectMissing properties].
  rewrite (flat_map_ext_on _ (fun _ => [])).
  - induction ps as [|p ps IHps]; [reflexivity|]. simpl. apply IHps.
    intros q u Hq. apply IH. now right.
  - intros p Hp. destruct (using_ p) as [u|] eqn:Hu; [|reflexivity].
    cbn [AutoLoad.not_loaded AutoLoad.attribute_exists AutoLoad.loaded_sub andb app].
    exact (IH p u Hp Hu _).
Qed.

(** C5, as amended. Whenever [detectRelationsToLoad(E, M, prefix)] returns,
    and it does on a model whose loaded objects all have a [relations]
    mapping, it returns the paths of the specification's algorithm with one
    difference: where there is no source object (the relation above is not
    loaded) every nested [using] rule is requested, where the
    specification's algorithm requests none; and an empty path is never
    returned. For [{ address: { using: AddressSpec } }]
    and a user without a loaded address but with an [address] member the
    result is [["address"]] when AddressSpec nests nothing, and
    [["address"; "address.city"]] when it nests the city; the call over the
    loaded address that lacks its city yields [["address.city"]]. What
    decides is the property [M[key]] of the model object; its attribute
    mapping is not read. *)
Theorem detectRelationsToLoad_paths (E : Entity) (model : option Model) (prefix : string) :
  (forall paths,
     Plugin.detectRelationsToLoad (Some E) model prefix = Ok paths ->
     paths = AutoLoad.detectMissing_absent E model prefix)
  /\ (all_have_relations model = true ->
      Plugin.detectRelationsToLoad (Some E) model prefix
      = Ok (AutoLoad.detectMissing_absent E model prefix))
  /\ (forall s d a a' ms rels,
        Plugin.detectRelationsToLoad (Some E) (Some (mkModel s d a ms rels)) prefix
        = Plugin.detectRelationsToLoad (Some E) (Some (mkModel s d a' ms rels)) prefix)
  /\ AutoLoad.detectMissing E None prefix = []
  /\ Plugin.detectRelationsToLoad None model prefix = Ok []
  /\ Plugin.detectRelationsToLoad (Some Sample.UserFlatAddressEntity) (Some Sample.user) ""
     = Ok ["address"]
  /\ Plugin.detectRelationsToLoad (Some Sample.UserEntity) (Some Sample.user) ""
     = Ok ["address"; "address.city"]
  /\ Plugin.detectRelationsToLoad (Some Sample.AddressEntity) (Some Sample.address) "address."
     = Ok ["address.city"]
  /\ Plugin.detectRelationsToLoad (Some Sample.UserEntity) (Some Sample.user_with_address) ""
     = Ok ["address.city"]
  /\ Plugin.detectRelationsToLoad (Some Sample.UserEntity)
       (Some Sample.user_without_address_member) ""
     = Ok ["address.city"].
Proof.
  split; [exact (detectRelations_returns E model prefix)|].
  split; [exact (detectRelations_refines E model prefix)|].
  split.
  { intros s d a a' ms rels. cbn [Plugin.detectRelationsToLoad].
    rewrite !detectRelations_eq. reflexivity. }
  split; [apply detectMissing_none|]. repeat split; reflexivity.
Qed.

Lemma detectRelationsToLoad_paths_witness :
  all_have_relations (Some Sample.user_with_address) = true
  /\ Plugin.detectRelationsToLoad (Some Sample.UserEntity) (Some Sample.user_with_address) ""
     = Ok (AutoLoad.detectMissing_absent Sample.UserEntity (Some Sample.user_with_address) "").
Proof.
  split; [reflexivity|].
  exact (proj1 (proj2 (detectRelationsToLoad_paths Sample.UserEntity
                         (Some Sample.user_with_address) "")) eq_refl).
Defined.

(** C5, as stated, fails: the user has no loaded address, a non-empty
    [address] among its attributes and a truthy [address] property; the
    specification's algorithm prescribes [["address"]], the code returns the
    nested path as well. *)
Lemma unloaded_relation_requests_nested_paths :
  has (relations Sample.user_with_address_key) "address" = false
  /\ lookup "address" (attributes Sample.user_with_address_key) = Some (VNum 12)
  /\ truthy (VNum 12) = true
  /\ truthy_at Sample.user_with_address_key "address" = true
  /\ AutoLoad.detectMissing Sample.UserEntity (Some Sample.user_with_address_key) ""
     = ["address"]
  /\ Plugin.detectRelationsToLoad (Some Sample.UserEntity)
       (Some Sample.user_with_address_key) ""
     = Ok ["address"; "address.city"]
  /\ Plugin.detectRelationsToLoad (Some Sample.UserEntity)
       (Some Sample.user_with_address_key) ""
     <> Ok (AutoLoad.detectMissing Sample.UserEntity (Some Sample.user_with_address_key) "").
Proof. repeat split; try reflexivity. discriminate. Qed.

(** ** Which entity is used *)

Lemma orElse_first_nonempty4 {A : Type} (a b c d : option A) :
  orElse (orElse (orElse a b) c) d = first_nonempty [a; b; c; d].
Proof. destruct a, b, c, d; reflexivity. Qed.



(** ** The root flag *)

Lemma hooked_toJSON_eq er (this : Model) :
  Bookshelf.hooked_toJSON er this
  = IndexB.Model_toJSON_on er (Bookshelf.serialize_with (Bookshelf.hooked_toJSON er)) this.
Proof. destruct this as [s d a ms [rels|]]; reflexivity. Qed.

Lemma serialize_eq (shallow : bool) (this : Model) :
  Bookshelf.serialize shallow this
  = VObj (if shallow then attributes this
          else fold_left (fun attrs kr => assign (fst kr) (snd kr) attrs)
                 (map (fun kr => (fst kr, Bookshelf.serialize shallow (snd kr)))
                    (Bookshelf.loaded this))
                 (attributes this)).
Proof. destruct this as [s d a ms [rels|]]; reflexivity. Qed.

(** Pending serializations that leave the options alone assign their
    results in order. *)
Lemma assign_each_pure (f : Model -> M Options value) (g : Model -> value)
  (opts : Options) (rels : list (string * Model)) :
  (forall k sub, In (k, sub) rels -> f sub opts = (Ok (g sub), opts)) ->
  forall attrs,
    Bookshelf.assign_each (map (fun kr => (fst kr, f (snd kr))) rels) attrs opts
    = (Ok (fold_left (fun attrs kr => assign (fst kr) (snd kr) attrs)
             (map (fun kr => (fst kr, g (snd kr))) rels) attrs), opts).
Proof.
  induction rels as [|[k sub] rels IH]; intros Hf attrs; [reflexivity|].
  cbn [map fst snd Bookshelf.assign_each fold_left]. unfold bind.
  rewrite (Hf k sub (or_introl eq_refl)).
  apply IH. intros k' sub' Hin. apply (Hf k'). now right.
Qed.

(** Once the flag is set, the hook of a whole tree of models answers with
    the base serialization, and leaves the options as they are. *)
Lemma hooked_toJSON_flagged er (this : Model) :
  forall opts, truthy (opt_entityRoot opts) = true ->
  Bookshelf.hooked_toJSON er this opts = Bookshelf.raw this opts.
Proof.
  induction this as [this IH] using Model_nested_ind. intros opts Hflag.
  rewrite hooked_toJSON_eq. unfold IndexB.Model_toJSON_on, bind at 1. cbn [get].
  rewrite Hflag. cbn [negb]. unfold Bookshelf.serialize_with, Bookshelf.raw, bind, get, ret.
  rewrite serialize_eq. destruct (truthy (opt_shallow opts)) eqn:Hsh; [reflexivity|].
  rewrite (assign_each_pure (Bookshelf.hooked_toJSON er)
             (Bookshelf.serialize (truthy (opt_shallow opts))) opts).
  - rewrite Hsh. reflexivity.
  - intros k sub Hin. unfold Bookshelf.loaded in Hin.
    destruct (relations this) as [rels|] eqn:Hrels; [|destruct Hin].
    exact (IH rels k sub eq_refl Hin opts Hflag).
Qed.

Lemma serialize_with_flagged er (this : Model) (opts : Options) :
  truthy (opt_entityRoot opts) = true ->
  Bookshelf.serialize_with (Bookshelf.hooked_toJSON er) this opts = Bookshelf.raw this opts.
Proof.
  intros Hflag. unfold Bookshelf.serialize_with, Bookshelf.raw, bind, get, ret.
  rewrite serialize_eq. destruct (truthy (opt_shallow opts)) eqn:Hsh; [reflexivity|].
  rewrite (assign_each_pure (Bookshelf.hooked_toJSON er)
             (Bookshelf.serialize (truthy (opt_shallow opts))) opts).
  - rewrite Hsh. reflexivity.
  - intros k sub _. now apply hooked_toJSON_flagged.
Qed.

Lemma each_toJSON_flagged er (ms : list Model) (opts : Options) :
  truthy (opt_entityRoot opts) = true ->
  Bookshelf.each_toJSON (Bookshelf.hooked_toJSON er) ms opts
  = (Ok (map (Bookshelf.serialize (truthy (opt_shallow opts))) ms), opts).
Proof.
  intros Hflag. induction ms as [|m ms IH]; [reflexivity|].
  cbn [Bookshelf.each_toJSON map]. unfold bind at 1.
  rewrite (hooked_toJSON_flagged er m opts Hflag). unfold Bookshelf.raw.
  unfold bind at 1. rewrite IH. reflexivity.
Qed.

Lemma set_entityRoot_flagged (o : Options) :
  truthy (opt_entityRoot (set_entityRoot o)) = true.
Proof. reflexivity. Qed.

(** [represent] of src/index.js, spelled out. *)
Lemma IndexB_Model_represent_eq er base (this : Model) (E : Entity) (o : Options) :
  IndexB.Model_represent er base this (Some E) o
  = match (if entitySafeMode this && negb (truthy (opt_shallow o))
           then checkRelations E this else Ok tt) with
    | Throw e => (Throw e, o)
    | Ok _ =>
        match base this o with
        | (Ok json, o') => (er E json o', o')
        | (Throw e, o') => (Throw e, o')
        end
    end.
Proof.
  unfold IndexB.Model_represent, bind, get, lift, ret.
  destruct (entitySafeMode this && negb (truthy (opt_shallow o))).
  - destruct (checkRelations E this) as [[]|]; [|reflexivity].
    destruct (base this o) as [[json|e] o']; reflexivity.
  - destruct (base this o) as [[json|e] o']; reflexivity.
Qed.

(** The base serialization of a model is an object, so a collection's
    [filter] keeps it. *)
Lemma serialize_truthy (shallow : bool) (this : Model) :
  truthy (Bookshelf.serialize shallow this) = true.
Proof. rewrite serialize_eq. reflexivity. Qed.

Lemma filter_truthy_serialized (shallow : bool) (ms : list Model) :
  filter truthy (map (Bookshelf.serialize shallow) ms)
  = map (Bookshelf.serialize shallow) ms.
Proof.
  induction ms as [|m ms IH]; [reflexivity|].
  cbn [map filter]. rewrite serialize_truthy. now rewrite IH.
Qed.

(** [Collection.represent] of src/index.js, spelled out. *)
Lemma IndexB_Collection_represent_eq er cbase (this : Collection) (E : Entity)
  (o : Options) :
  IndexB.Collection_represent er cbase this (Some E) o
  = match (if model_entitySafeMode this && negb (truthy (opt_shallow o))
           then forEach (models this) (fun model => checkRelations E model)
           else Ok tt) with
    | Throw e => (Throw e, o)
    | Ok _ =>
        match cbase this o with
        | (Ok items, o') => (er E (VArr (filter truthy items)) o', o')
        | (Throw e, o') => (Throw e, o')
        end
    end.
Proof.
  unfold IndexB.Collection_represent, bind, get, lift, ret.
  destruct (model_entitySafeMode this && negb (truthy (opt_shallow o))).
  - destruct (forEach _ _) as [[]|]; [|reflexivity].
    destruct (cbase this o) as [[items|e] o']; reflexivity.
  - destruct (cbase this o) as [[items|e] o']; reflexivity.
Qed.

(** C7. The recursion guard. When [opts.entityRoot] is not set,
    [Model.toJSON(opts)] sets it and returns [represent] of the resolved
    entity on the flagged options: [undefined] when no entity resolves, and
    otherwise the error of the relation check, or the entity applied by
    json-entity to what the base serialization returned, with the options
    as the base serialization left them. When the flag is set, it returns
    the base serialization, and neither the check nor json-entity is
    reached. [Collection.toJSON] does the same with the collection's
    [represent]. On a tree of models that all carry the hook, the base
    serialization called at the root reaches the hook of every loaded
    relation with the flag set, so every level below the root answers with
    its unfiltered serialization: the entity is applied once, at the root,
    to the unfiltered serialization of the whole tree, and what is kept of
    a relation is what the entity's rules say. *)
Theorem root_flag er base cbase (M : Model) (C : Collection) (o : Options) :
  (truthy (opt_entityRoot o) = false ->
     IndexA.Model_toJSON er base M (ArgObject o)
     = IndexA.Model_represent er base M (orElse (opt_entity o) (defaultEntity M))
         (set_entityRoot o)
     /\ IndexB.Model_toJSON er base M (ArgObject o)
        = IndexB.Model_represent er base M (orElse (opt_entity o) (defaultEntity M))
            (set_entityRoot o)
     /\ IndexB.Collection_toJSON er cbase C (ArgObject o)
        = IndexB.Collection_represent er cbase C
            (orElse (opt_entity o) (model_defaultEntity C)) (set_entityRoot o)
     /\ opt_entityRoot (set_entityRoot o) = VBool true
     /\ Bookshelf.hooked_toJSON er M o
        = IndexB.Model_represent er Bookshelf.raw M
            (orElse (opt_entity o) (defaultEntity M)) (set_entityRoot o)
     /\ IndexB.Collection_toJSON er (Bookshelf.hooked_collection er) C (ArgObject o)
        = IndexB.Collection_represent er
            (fun c opts => (Ok (map (Bookshelf.serialize (truthy (opt_shallow opts))) (models c)), opts))
            C (orElse (opt_entity o) (model_defaultEntity C)) (set_entityRoot o)
     /\ (orElse (opt_entity o) (defaultEntity M) = None ->
         IndexA.Model_toJSON er base M (ArgObject o) = (Ok VUndefined, set_entityRoot o)
         /\ IndexB.Model_toJSON er base M (ArgObject o) = (Ok VUndefined, set_entityRoot o)
         /\ Bookshelf.hooked_toJSON er M o = (Ok VUndefined, set_entityRoot o))
     /\ (forall E, orElse (opt_entity o) (defaultEntity M) = Some E ->
         (forall toJSON,
            toJSON = IndexA.Model_toJSON er base \/ toJSON = IndexB.Model_toJSON er base ->
            toJSON M (ArgObject o)
            = match (if entitySafeMode M && negb (truthy (opt_shallow o))
                     then checkRelations E M else Ok tt) with
              | Throw e => (Throw e, set_entityRoot o)
              | Ok _ =>
                  match base M (set_entityRoot o) with
                  | (Ok json, o') => (er E json o', o')
                  | (Throw e, o') => (Throw e, o')
                  end
              end)
         /\ Bookshelf.hooked_toJSON er M o
            = match (if entitySafeMode M && negb (truthy (opt_shallow o))
                     then checkRelations E M else Ok tt) with
              | Throw e => (Throw e, set_entityRoot o)
              | Ok _ =>
                  (er E (Bookshelf.serialize (truthy (opt_shallow o)) M) (set_entityRoot o),
                   set_entityRoot o)
              end)
     /\ (orElse (opt_entity o) (model_defaultEntity C) = None ->
         IndexB.Collection_toJSON er cbase C (ArgObject o) = (Ok (VArr []), set_entityRoot o))
     /\ (forall E, orElse (opt_entity o) (model_defaultEntity C) = Some E ->
         IndexB.Collection_toJSON er cbase C (ArgObject o)
         = match (if model_entitySafeMode C && negb (truthy (opt_shallow o))
                  then forEach (models C) (fun model => checkRelations E model)
                  else Ok tt) with
           | Throw e => (Throw e, set_entityRoot o)
           | Ok _ =>
               match cbase C (set_entityRoot o) with
               | (Ok items, o') => (er E (VArr (filter truthy items)) o', o')
               | (Throw e, o') => (Throw e, o')
               end
           end
         /\ IndexB.Collection_toJSON er (Bookshelf.hooked_collection er) C (ArgObject o)
            = match (if model_entitySafeMode C && negb (truthy (opt_shallow o))
                     then forEach (models C) (fun model => checkRelations E model)
                     else Ok tt) with
              | Throw e => (Throw e, set_entityRoot o)
              | Ok _ =>
                  (er E (VArr (map (Bookshelf.serialize (truthy (opt_shallow o))) (models C)))
                      (set_entityRoot o),
                   set_entityRoot o)
              end))
  /\ (truthy (opt_entityRoot o) = true ->
      IndexA.Model_toJSON er base M (ArgObject o) = base M o
      /\ IndexB.Model_toJSON er base M (ArgObject o) = base M o
      /\ IndexB.Collection_toJSON er cbase C (ArgObject o)
         = bind (cbase C) (fun items => ret (VArr items)) o
      /\ Bookshelf.hooked_toJSON er M o
         = (Ok (Bookshelf.serialize (truthy (opt_shallow o)) M), o)
      /\ IndexB.Collection_toJSON er (Bookshelf.hooked_collection er) C (ArgObject o)
         = (Ok (VArr (map (Bookshelf.serialize (truthy (opt_shallow o))) (models C))), o)).
Proof.
  split; intros Hflag.
  - assert (forall base', IndexB.Model_toJSON er base' M (ArgObject o)
              = IndexB.Model_represent er base' M (orElse (opt_entity o) (defaultEntity M))
                  (set_entityRoot o)) as HB.
    { intros base'. unfold IndexB.Model_toJSON, IndexB.Model_toJSON_on.
      cbn [default_arg ensure_object]. unfold bind at 1. cbn [get].
      rewrite Hflag. reflexivity. }
    assert (IndexA.Model_toJSON er base M (ArgObject o)
            = IndexB.Model_represent er base M (orElse (opt_entity o) (defaultEntity M))
                (set_entityRoot o)) as HA.
    { unfold IndexA.Model_toJSON, IndexA.Model_toJSON_on.
      cbn [default_arg ensure_object]. unfold bind at 1. cbn [get].
      rewrite Hflag. reflexivity. }
    assert (forall cbase', IndexB.Collection_toJSON er cbase' C (ArgObject o)
              = IndexB.Collection_represent er cbase' C
                  (orElse (opt_entity o) (model_defaultEntity C)) (set_entityRoot o)) as HC.
    { intros cbase'. unfold IndexB.Collection_toJSON, IndexB.Collection_toJSON_on.
      cbn [default_arg ensure_object]. unfold bind at 1. cbn [get].
      rewrite Hflag. reflexivity. }
    assert (Bookshelf.hooked_toJSON er M o
            = IndexB.Model_represent er Bookshelf.raw M
                (orElse (opt_entity o) (defaultEntity M)) (set_entityRoot o)) as HH.
    { rewrite hooked_toJSON_eq.
      change (IndexB.Model_toJSON_on er (Bookshelf.serialize_with (Bookshelf.hooked_toJSON er)) M o)
        with (IndexB.Model_toJSON er (Bookshelf.serialize_with (Bookshelf.hooked_toJSON er)) M
                (ArgObject o)).
      rewrite HB. destruct (orElse (opt_entity o) (defaultEntity M)) as [E|]; [|reflexivity].
      rewrite !IndexB_Model_represent_eq.
      rewrite (serialize_with_flagged er M (set_entityRoot o) eq_refl).
      reflexivity. }
    assert (IndexB.Collection_toJSON er (Bookshelf.hooked_collection er) C (ArgObject o)
            = IndexB.Collection_represent er
                (fun c opts =>
                   (Ok (map (Bookshelf.serialize (truthy (opt_shallow opts))) (models c)), opts))
                C (orElse (opt_entity o) (model_defaultEntity C)) (set_entityRoot o)) as HHC.
    { rewrite HC. destruct (orElse (opt_entity o) (model_defaultEntity C)) as [E|]; [|reflexivity].
      rewrite !IndexB_Collection_represent_eq.
      unfold Bookshelf.hooked_collection, Bookshelf.collection_serialize_with.
      now rewrite (each_toJSON_flagged er (models C) (set_entityRoot o) eq_refl). }
    repeat match goal with |- _ /\ _ => split end.
    + exact HA.
    + apply HB.
    + apply HC.
    + reflexivity.
    + exact HH.
    + exact HHC.
    + intros Hnone. rewrite HA, HB, HH, Hnone. repeat split.
    + intros E Hsome. split.
      * intros toJSON [-> | ->]; [rewrite HA | rewrite HB]; rewrite Hsome;
          now rewrite IndexB_Model_represent_eq.
      * rewrite HH, Hsome. rewrite IndexB_Model_represent_eq. reflexivity.
    + intros Hnone. rewrite HC, Hnone. reflexivity.
    + intros E Hsome. split.
      * rewrite HC, Hsome. now rewrite IndexB_Collection_represent_eq.
      * rewrite HHC, Hsome. rewrite IndexB_Collection_represent_eq.
        cbn [opt_shallow set_entityRoot]. now rewrite filter_truthy_serialized.
  - repeat match goal with |- _ /\ _ => split end.
    + unfold IndexA.Model_toJSON, IndexA.Model_toJSON_on.
      cbn [default_arg ensure_object]. unfold bind at 1. cbn [get].
      rewrite Hflag. reflexivity.
    + unfold IndexB.Model_toJSON, IndexB.Model_toJSON_on.
      cbn [default_arg ensure_object]. unfold bind at 1. cbn [get].
      rewrite Hflag. reflexivity.
    + unfold IndexB.Collection_toJSON, IndexB.Collection_toJSON_on.
      cbn [default_arg ensure_object]. unfold bind at 1. cbn [get].
      rewrite Hflag. reflexivity.
    + exact (hooked_toJSON_flagged er M o Hflag).
    + unfold IndexB.Collection_toJSON, IndexB.Collection_toJSON_on.
      cbn [default_arg ensure_object]. unfold bind at 1. cbn [get].
      rewrite Hflag. cbn [negb].
      unfold Bookshelf.hooked_collection, Bookshelf.collection_serialize_with, bind.
      now rewrite (each_toJSON_flagged er (models C) o Hflag).
Qed.

Lemma root_flag_witness :
  (truthy (opt_entityRoot (Sample.with_entity Sample.UserFlatAddressEntity)) = false
   /\ orElse (opt_entity (Sample.with_entity Sample.UserFlatAddressEntity))
        (defaultEntity Sample.private_user)
      = Some Sample.UserFlatAddressEntity
   /\ Bookshelf.hooked_toJSON JsonEntity.represent_on Sample.private_user
        (Sample.with_entity Sample.UserFlatAddressEntity)
      = (Ok (VObj [("id", VNum 1); ("address", VObj [("street", VStr "1 Main St")])]),
         set_entityRoot (Sample.with_entity Sample.UserFlatAddressEntity)))
  /\ (truthy (opt_entityRoot (set_entityRoot (Sample.with_entity Sample.UserFlatAddressEntity)))
      = true
      /\ Bookshelf.hooked_toJSON JsonEntity.represent_on Sample.private_address
           (set_entityRoot (Sample.with_entity Sample.UserFlatAddressEntity))
         = (Ok (VObj [("street", VStr "1 Main St"); ("door_code", VStr "4711")]),
            set_entityRoot (Sample.with_entity Sample.UserFlatAddressEntity))).
Proof.
  split; (split; [reflexivity|]).
  - split; [reflexivity|].
    exact (proj2 (proj1 (proj2 (proj2 (proj2 (proj2 (proj2 (proj2 (proj2
             (proj1 (root_flag JsonEntity.represent_on
                       (Bookshelf.serialize_with (Bookshelf.hooked_toJSON JsonEntity.represent_on))
                       (Bookshelf.hooked_collection JsonEntity.represent_on)
                       Sample.private_user (Sample.users [Sample.private_user])
                       (Sample.with_entity Sample.UserFlatAddressEntity))
                eq_refl)))))))) Sample.UserFlatAddressEntity eq_refl)).
  - exact (proj1 (proj2 (proj2 (proj2
             (proj2 (root_flag JsonEntity.represent_on
                       (Bookshelf.serialize_with (Bookshelf.hooked_toJSON JsonEntity.represent_on))
                       (Bookshelf.hooked_collection JsonEntity.represent_on)
                       Sample.private_address (Sample.users [Sample.private_address])
                       (set_entityRoot (Sample.with_entity Sample.UserFlatAddressEntity)))
                eq_refl))))).
Defined.

(** ** Falsy entries of a serialized collection *)

Lemma filter_truthy_all (items : list value) :
  Forall (fun v => truthy v = true) (filter truthy items).
Proof. apply Forall_forall. intros v Hv. now apply filter_In in Hv. Qed.

Lemma filter_split_length {A : Type} (f : A -> bool) (xs : list A) :
  length (filter f xs) + length (filter (fun x => negb (f x)) xs) = length xs.
Proof.
  induction xs as [|x xs IH]; [reflexivity|]. simpl.
  destruct (f x); simpl; lia.
Qed.

(** C8, as amended. The array that [Collection.toJSON] of the first
    definition returns holds no falsy entry: it is the base serialization
    without its falsy entries ([undefined], [null], [false], [0], the empty
    string), in the same order, shorter by their number; an entry that is
    an empty mapping is truthy and is kept. In the second definition
    [Collection.represent] removes the falsy entries of the base
    serialization before the entity is applied to the array; in the
    current plugin it hands the base serialization to the entity as it
    is. *)
Theorem collection_drops_falsy er erP cbaseA cbaseB cbaseP (C : Collection) (E : Entity)
  (arg arg' : Arg) (o o' : Options) (items itemsB : list value) :
  cbaseA C arg = (Ok items, arg') ->
  cbaseB C o = (Ok itemsB, o') ->
  IndexA.Collection_toJSON cbaseA C arg = (Ok (VArr (filter truthy items)), arg')
  /\ Forall (fun v => truthy v = true) (filter truthy items)
  /\ length (filter truthy items)
     + length (filter (fun v => negb (truthy v)) items) = length items
  /\ (forall v, In v items -> truthy v = false -> ~ In v (filter truthy items))
  /\ (forall v, In v items -> truthy v = true -> In v (filter truthy items))
  /\ (In (VObj []) items -> In (VObj []) (filter truthy items))
  /\ ((if model_entitySafeMode C && negb (truthy (opt_shallow o))
       then forEach (models C) (fun model => checkRelations E model) else Ok tt) = Ok tt ->
      IndexB.Collection_represent er cbaseB C (Some E) o
      = (er E (VArr (filter truthy itemsB)) o', o'))
  /\ (forall options loads json,
        res_bind (Plugin.check_enabled (model_entitySafeMode C) (default_arg options))
          (fun enabled =>
             if enabled : bool
             then forEach (models C) (fun model => Plugin.performSafetyCheck E model)
             else Ok tt) = Ok tt ->
        cbaseP C (default_arg options) = Ok json ->
        Plugin.Collection_represent erP cbaseP (Some E) options (Plugin.mkWorld C loads)
        = (erP E json (default_arg options), Plugin.mkWorld C loads)).
Proof.
  intros HA HB. repeat split.
  - unfold IndexA.Collection_toJSON, bind, ret. now rewrite HA.
  - apply filter_truthy_all.
  - apply filter_split_length.
  - intros v _ Hv Hin. apply filter_In in Hin. destruct Hin as [_ Hin]. congruence.
  - intros v Hin Hv. apply filter_In. now split.
  - intros Hin. apply filter_In. now split.
  - intros Hcheck. unfold IndexB.Collection_represent, bind, get, lift, ret.
    destruct (model_entitySafeMode C && negb (truthy (opt_shallow o)));
      [rewrite Hcheck|]; rewrite HB; reflexivity.
  - intros options loads json Hpass Hjson. rewrite Collection_represent_eq.
    cbn [Plugin.this].
    destruct (Plugin.check_enabled _ _) as [enabled|]; [|discriminate].
    cbn [res_bind] in *. rewrite Hpass. cbn [res_bind]. rewrite Hjson. reflexivity.
Qed.

Lemma collection_drops_falsy_witness :
  Bookshelf.hooked_collection_args JsonEntity.represent_on (Sample.users [Sample.user])
    ArgUndefined = (Ok [VUndefined], ArgUndefined)
  /\ IndexA.Collection_toJSON (Bookshelf.hooked_collection_args JsonEntity.represent_on)
       (Sample.users [Sample.user]) ArgUndefined
     = (Ok (VArr (filter truthy [VUndefined])), ArgUndefined).
Proof.
  split; [reflexivity|].
  exact (proj1 (collection_drops_falsy JsonEntity.represent_on JsonEntity.represent_arg
                  (Bookshelf.hooked_collection_args JsonEntity.represent_on)
                  (Bookshelf.hooked_collection JsonEntity.represent_on)
                  Bookshelf.Collection_toJSON
                  (Sample.users [Sample.user]) Sample.EmptyEntity
                  ArgUndefined ArgUndefined
                  (set_entityRoot empty_options) (set_entityRoot empty_options)
                  [VUndefined] [Bookshelf.serialize false Sample.user] eq_refl eq_refl)).
Defined.

(** C8, as stated, fails: the entity exposes nothing, so the
    representation of the one user is the empty mapping; it is not removed,
    and the array is as long as the collection. *)
Lemma empty_representation_is_kept :
  fst (IndexA.Model_toJSON JsonEntity.represent_on
         (Bookshelf.serialize_with (Bookshelf.hooked_toJSON JsonEntity.represent_on))
         Sample.user
         (ArgObject (Sample.with_entity Sample.EmptyEntity)))
  = Ok (VObj [])
  /\ fst (IndexA.Collection_toJSON (Bookshelf.hooked_collection_args JsonEntity.represent_on)
            (Sample.users [Sample.user])
            (ArgObject (Sample.with_entity Sample.EmptyEntity)))
     = Ok (VArr [VObj []])
  /\ size (Sample.users [Sample.user]) = length [VObj []].
Proof. repeat split; reflexivity. Qed.

(** ** [represent] leaves its world alone *)

(** [Model.represent] over collaborators that only compute is
    [Model.represent] over the same collaborators called in the world. *)
Lemma Model_represent_calling_lifted er base (entity : option Entity) (options : Arg)
  (w : Plugin.World Model) :
  Plugin.Model_represent_calling
    (fun e json opts => lift (er e json opts))
    (fun opts w0 => (base (Plugin.this w0) opts, w0))
    entity options w
  = Plugin.Model_represent er base entity options w.
Proof.
  destruct entity as [E|]; [|reflexivity].
  unfold Plugin.Model_represent_calling, Plugin.Model_represent, bind, get, lift, ret.
  destruct (Plugin.check_enabled _ _) as [[|]|]; reflexivity.
Qed.




(** The hypotheses are needed: over a serialization that writes to the
    model, [represent] hands the write on, and a second call does not
    answer as the first did. *)
Example represent_over_a_writing_serialization :
  let base : Arg -> M (Plugin.World Model) value :=
    fun _ w =>
      (Ok (VObj (attributes (Plugin.this w))),
       Plugin.mkWorld
         (mkModel (entitySafeMode (Plugin.this w)) (defaultEntity (Plugin.this w))
            (assign "id" (VNum 2) (attributes (Plugin.this w)))
            (members (Plugin.this w)) (relations (Plugin.this w)))
         (Plugin.loads w)) in
  let run :=
    Plugin.Model_represent_calling
      (fun e json opts => lift (JsonEntity.represent_arg e json opts)) base
      (Some Sample.UserEntity) ArgUndefined in
  fst (run (Plugin.mkWorld Sample.user [])) = Ok (VObj [("id", VNum 1)])
  /\ attributes (Plugin.this (snd (run (Plugin.mkWorld Sample.user [])))) = [("id", VNum 2)]
  /\ fst (run (snd (run (Plugin.mkWorld Sample.user [])))) = Ok (VObj [("id", VNum 2)]).
Proof. repeat split. Qed.

(** ** What [present] asks the host to load *)

Lemma Collection_represent_world er cbase (entity : option Entity) (options : Arg)
  (w : Plugin.World Collection) :
  snd (Plugin.Collection_represent er cbase entity options w) = w.
Proof. destruct entity as [E|]; [|reflexivity]. now rewrite Collection_represent_eq. Qed.

(** The paths [Collection.present] hands to [this.load]. *)
Lemma Collection_present_loads er cbase cload (options : Arg) (C : Collection)
  (loads : list (list string)) :
  Plugin.loads (snd (Plugin.Collection_present er cbase cload options (Plugin.mkWorld C loads)))
  = loads ++
    match first_nonempty
            [opt_entity (ensure_object (default_arg options));
             opt_with (ensure_object (default_arg options));
             opt_using (ensure_object (default_arg options));
             model_defaultEntity C] with
    | None => []
    | Some e =>
        match first C with
        | None => []
        | Some m =>
            match Plugin.detectRelationsToLoad (Some e) (Some m) "" with
            | Ok paths => [paths]
            | Throw _ => []
            end
        end
    end.
Proof.
  unfold Plugin.Collection_present. unfold bind at 1. cbn [get Plugin.this].
  rewrite orElse_first_nonempty4.
  destruct (first_nonempty _) as [e|]; [|cbn; now rewrite app_nil_r].
  destruct C as [s d [|m ms]]; [cbn; now rewrite app_nil_r|].
  cbn [size models length Nat.eqb first head].
  unfold bind at 1. cbn [get]. unfold bind at 1. unfold lift at 1. cbn [Plugin.this first models head].
  destruct (Plugin.detectRelationsToLoad (Some e) (Some m) "") as [paths|err];
    [|cbn; now rewrite app_nil_r].
  unfold bind at 1. unfold Plugin.load_if_truthy, Plugin.load.
  cbn [truthy Plugin.this Plugin.loads].
  destruct (cload paths _) as [[[]|err] C']; [|reflexivity].
  cbn [fst snd]. now rewrite Collection_represent_world.
Qed.

(** C10. [Collection.present] detects the relations to load on the first
    model only: two collections of the same model class with the same first
    model hand the same paths to [this.load], whatever their other models
    are; the one request is what [detectRelationsToLoad] returns for the
    resolved entity and the first model. On an empty collection [present]
    fulfils with the empty array, and nothing is detected or loaded. *)
Theorem present_detects_on_first er cbase cload (options : Arg) (C1 C2 : Collection)
  (loads : list (list string)) :
  first C1 = first C2 ->
  model_defaultEntity C1 = model_defaultEntity C2 ->
  Plugin.loads (snd (Plugin.Collection_present er cbase cload options (Plugin.mkWorld C1 loads)))
  = Plugin.loads (snd (Plugin.Collection_present er cbase cload options (Plugin.mkWorld C2 loads)))
  /\ (forall e m paths,
        first_nonempty
          [opt_entity (ensure_object (default_arg options));
           opt_with (ensure_object (default_arg options));
           opt_using (ensure_object (default_arg options));
           model_defaultEntity C1] = Some e ->
        first C1 = Some m ->
        Plugin.detectRelationsToLoad (Some e) (Some m) "" = Ok paths ->
        Plugin.loads (snd (Plugin.Collection_present er cbase cload options
                             (Plugin.mkWorld C1 loads)))
        = loads ++ [paths])
  /\ (forall s d,
        Plugin.Collection_present er cbase cload options
          (Plugin.mkWorld (mkCollection s d []) loads)
        = (Ok (VArr []), Plugin.mkWorld (mkCollection s d []) loads)).
Proof.
  intros Hfirst Hdefault. repeat split.
  - rewrite !Collection_present_loads, Hfirst, Hdefault. reflexivity.
  - intros e m paths He Hm Hpaths.
    rewrite Collection_present_loads, He, Hm, Hpaths. reflexivity.
  - intros s d. unfold Plugin.Collection_present. unfold bind at 1. cbn [get Plugin.this].
    destruct (orElse _ _); reflexivity.
Qed.

Lemma present_detects_on_first_witness :
  first (Sample.users [Sample.user; Sample.other_user])
  = first (Sample.users [Sample.user; Sample.user_with_city; Sample.address])
  /\ model_defaultEntity (Sample.users [Sample.user; Sample.other_user])
     = model_defaultEntity (Sample.users [Sample.user; Sample.user_with_city; Sample.address])
  /\ Plugin.loads (snd (Plugin.Collection_present JsonEntity.represent_arg
                          Bookshelf.Collection_toJSON Bookshelf.load_nothing
                          (ArgObject (Sample.with_entity Sample.UserEntity))
                          (Plugin.mkWorld (Sample.users [Sample.user; Sample.other_user]) [])))
     = Plugin.loads (snd (Plugin.Collection_present JsonEntity.represent_arg
                            Bookshelf.Collection_toJSON Bookshelf.load_nothing
                            (ArgObject (Sample.with_entity Sample.UserEntity))
                            (Plugin.mkWorld
                               (Sample.users [Sample.user; Sample.user_with_city; Sample.address])
                               []))).
Proof.
  split; [reflexivity|]. split; [reflexivity|].
  exact (proj1 (present_detects_on_first JsonEntity.represent_arg
                  Bookshelf.Collection_toJSON Bookshelf.load_nothing
                  (ArgObject (Sample.with_entity Sample.UserEntity))
                  (Sample.users [Sample.user; Sample.other_user])
                  (Sample.users [Sample.user; Sample.user_with_city; Sample.address])
                  [] eq_refl eq_refl)).
Defined.

(** ** Worked examples *)

(** Conditional inclusion and renaming, on the plugin's [represent]. *)
Example traveller_without_location :
  fst (Plugin.Model_represent JsonEntity.represent_arg Bookshelf.Model_toJSON
         (Some Sample.TravellerEntity) (ArgObject empty_options)
         (Plugin.mkWorld Sample.traveller []))
  = Ok (VObj [("id", VNum 1)]).
Proof. reflexivity. Qed.

Example traveller_with_location :
  fst (Plugin.Model_represent JsonEntity.represent_arg Bookshelf.Model_toJSON
         (Some Sample.TravellerEntity) (ArgObject Sample.include_location)
         (Plugin.mkWorld Sample.traveller []))
  = Ok (VObj [("id", VNum 1); ("hometown", VStr "SF")]).
Proof. reflexivity. Qed.

(** With [using] the loaded address and its city are represented by their
    own entities. *)
Example user_with_city_represented :
  fst (Plugin.Model_represent JsonEntity.represent_arg Bookshelf.Model_toJSON
         (Some Sample.UserEntity) (ArgObject empty_options)
         (Plugin.mkWorld Sample.user_with_city []))
  = Ok (VObj [("id", VNum 1);
              ("address", VObj [("street", VStr "1 Main St");
                                ("city", VObj [("name", VStr "Paris")])])]).
Proof. reflexivity. Qed.

(** [present] on a host that has every relation in memory: the detected
    paths are handed to [load], then the model is represented. *)
Example present_requests_address :
  Plugin.Model_present JsonEntity.represent_arg Bookshelf.Model_toJSON
    Bookshelf.load_nothing (ArgObject (Sample.with_entity Sample.UserEntity))
    (Plugin.mkWorld Sample.user [])
  = (Ok (VObj [("id", VNum 1)]),
     Plugin.mkWorld Sample.user [["address"; "address.city"]]).
Proof. reflexivity. Qed.

(** The hook on a tree: the root is represented, the levels below come
    from the base serialization, and the flag stays set on the options. *)
Example hook_on_a_tree :
  Bookshelf.hooked_call JsonEntity.represent_on Sample.user_with_city
    (ArgObject (Sample.with_entity Sample.UserEntity))
  = (Ok (VObj [("id", VNum 1);
               ("address", VObj [("street", VStr "1 Main St");
                                 ("city", VObj [("name", VStr "Paris")])])]),
     set_entityRoot (Sample.with_entity Sample.UserEntity)).
Proof. reflexivity. Qed.

(** * Further properties of the code *)

(** ** Paths of the relation auto-detection *)

Lemma prefix_append (s t : string) : String.prefix s (s ++ t)%string = true.
Proof.
  induction s as [|a s IH]; simpl; [now destruct t|].
  destruct (ascii_dec a a) as [_|Hne]; [exact IH | now destruct Hne].
Qed.

Lemma prefix_of_longer (s t p : string) :
  String.prefix (s ++ t)%string p = true -> String.prefix s p = true.
Proof.
  revert p. induction s as [|a s IH]; intros p; [now destruct p|].
  destruct p as [|b p]; simpl; [discriminate|].
  destruct (ascii_dec a b); [apply IH | discriminate].
Qed.

Lemma path_In (p x : string) : In x (AutoLoad.path p) -> x = p /\ p <> "".
Proof.
  unfold AutoLoad.path. destruct (String.eqb_spec p ""); [intros []|].
  intros [<-|[]]. now split.
Qed.

Lemma absent_paths_prefixed (E : Entity) :
  forall model pre x,
    In x (AutoLoad.detectMissing_absent E model pre) ->
    x <> "" /\ String.prefix pre x = true.
Proof.
  induction E as [ps IH] using Entity_nested_ind. intros model pre x.
  cbn [AutoLoad.detectMissing_absent properties]. rewrite in_flat_map.
  intros (p & Hp & Hx). destruct (using_ p) as [u|] eqn:Hu; [|destruct Hx].
  apply in_app_or in Hx. destruct Hx as [Hx|Hx].
  - assert (In x (AutoLoad.path (pre ++ key p)%string)) as Hpath.
    { destruct model as [m|]; [|exact Hx]. destruct (_ && _); [exact Hx | destruct Hx]. }
    apply path_In in Hpath. destruct Hpath as [-> Hne].
    split; [assumption | apply prefix_append].
  - destruct (IH p u Hp Hu _ _ _ Hx) as [Hne Hpre].
    split; [assumption|]. exact (prefix_of_longer pre _ x Hpre).
Qed.

(** X1. Whatever [detectRelationsToLoad] returns, no path in it is the
    empty string and every path begins with the prefix it was called
    with. *)
Theorem detected_paths_are_prefixed (entity : option Entity) (model : option Model)
  (pre : string) (paths : list string) :
  Plugin.detectRelationsToLoad entity model pre = Ok paths ->
  Forall (fun x => x <> "" /\ String.prefix pre x = true) paths.
Proof.
  destruct entity as [E|]; cbn [Plugin.detectRelationsToLoad].
  - intros H. apply detectRelations_returns in H. subst paths.
    apply Forall_forall. intros x Hx. exact (absent_paths_prefixed E model pre x Hx).
  - intros [= <-]. constructor.
Qed.

Lemma detected_paths_are_prefixed_witness :
  Plugin.detectRelationsToLoad (Some Sample.AddressEntity) (Some Sample.address) "address."
  = Ok ["address.city"]
  /\ Forall (fun x => x <> "" /\ String.prefix "address." x = true) ["address.city"].
Proof.
  split; [reflexivity|].
  exact (detected_paths_are_prefixed (Some Sample.AddressEntity) (Some Sample.address)
           "address." ["address.city"] eq_refl).
Defined.

Lemma flat_map_nil {A B : Type} (xs : list A) : flat_map (fun _ : A => @nil B) xs = [].
Proof. induction xs as [|x xs IH]; [reflexivity | exact IH]. Qed.

Lemma existsb_false {A : Type} (f : A -> bool) (xs : list A) :
  existsb f xs = false -> forall x, In x xs -> f x = false.
Proof.
  intros Hno x Hx. destruct (f x) eqn:Hfx; [|reflexivity].
  assert (existsb f xs = true) as Hyes by (apply existsb_exists; now exists x).
  congruence.
Qed.

Lemma detectRelations_fully_loaded (E : Entity) :
  forall m pre, fully_loaded E m = true -> Plugin.detectRelations E (Some m) pre = Ok [].
Proof.
  induction E as [ps IH] using Entity_nested_ind. intros m pre Hfull.
  cbn [fully_loaded properties] in Hfull. rewrite forallb_forall in Hfull.
  rewrite detectRelations_eq. cbn [properties].
  rewrite (reduce_collect _ (fun _ => [])).
  - now rewrite flat_map_nil.
  - intros acc p Hp. specialize (Hfull p Hp).
    destruct (using_ p) as [u|] eqn:Hu; [|now rewrite app_nil_r].
    destruct (relations m) as [rels|] eqn:Hrels; [|discriminate].
    destruct (lookup (key p) rels) as [sub|] eqn:Hsub; [|discriminate].
    unfold Plugin.loaded_relation, Plugin.should_load, has.
    rewrite Hrels, Hsub. cbn [res_bind negb andb].
    rewrite (IH p u Hp Hu sub _ Hfull). reflexivity.
Qed.

(** X2. Once every relation named by a rule with [using] is loaded, on the
    model and on each loaded relation below it, [detectRelationsToLoad]
    returns the empty list: nothing is left to load. *)
Theorem nothing_to_load_when_fully_loaded (E : Entity) (m : Model) (pre : string) :
  fully_loaded E m = true ->
  Plugin.detectRelationsToLoad (Some E) (Some m) pre = Ok [].
Proof. exact (detectRelations_fully_loaded E m pre). Qed.

Lemma nothing_to_load_when_fully_loaded_witness :
  fully_loaded Sample.UserEntity Sample.user_with_city = true
  /\ Plugin.detectRelationsToLoad (Some Sample.UserEntity) (Some Sample.user_with_city) ""
     = Ok [].
Proof.
  split; [reflexivity|].
  exact (nothing_to_load_when_fully_loaded Sample.UserEntity Sample.user_with_city ""
           eq_refl).
Defined.

(** A [reduce] whose steps keep the accumulator or throw one and the same
    error throws it as soon as one step does. *)
Lemma reduce_throws {A B : Type} (f : B -> A -> Res B) (t : Error) (xs : list A) :
  (forall acc x, In x xs -> f acc x = Ok acc \/ f acc x = Throw t) ->
  (exists x, In x xs /\ forall acc, f acc x = Throw t) ->
  forall init, reduce f xs init = Throw t.
Proof.
  induction xs as [|x xs IH]; intros Hf (y & Hy & Hthrow) init; [destruct Hy|].
  simpl. destruct Hy as [->|Hy]; [now rewrite Hthrow|].
  destruct (Hf init x (or_introl eq_refl)) as [->| ->]; [|reflexivity].
  simpl. apply IH; [|now exists y]. intros acc z Hz. apply Hf. now right.
Qed.

(** X3. On an object that has no [relations] mapping,
    [detectRelationsToLoad] throws a TypeError as soon as the entity has a
    rule with [using], since it reads [model.relations[key]] unguarded; for
    an entity without such a rule it returns the empty list on any model;
    [performSafetyCheck], which reads [model.relations || {}], passes on
    such an object. *)
Theorem object_without_relations (E : Entity) (m : Model) (pre : string) :
  relations m = None ->
  (has_using E = true ->
   Plugin.detectRelationsToLoad (Some E) (Some m) pre
   = Throw (TypeError "Cannot read property of undefined"))
  /\ (has_using E = false ->
      forall model, Plugin.detectRelationsToLoad (Some E) model pre = Ok [])
  /\ Plugin.performSafetyCheck E m = Ok tt.
Proof.
  intros Hnone. repeat split.
  - intros Hyes. unfold has_using in Hyes. apply existsb_exists in Hyes.
    destruct Hyes as (p & Hp & Hu). cbv beta in Hu.
    cbn [Plugin.detectRelationsToLoad]. rewrite detectRelations_eq.
    rewrite (reduce_throws _ (TypeError "Cannot read property of undefined")); [reflexivity| |].
    + intros acc q Hq. destruct (using_ q); [right|now left].
      unfold Plugin.loaded_relation. now rewrite Hnone.
    + exists p. split; [assumption|]. intros acc.
      destruct (using_ p); [|simpl in Hu; discriminate Hu].
      unfold Plugin.loaded_relation. now rewrite Hnone.
  - intros Hno model. cbn [Plugin.detectRelationsToLoad]. rewrite detectRelations_eq.
    rewrite (reduce_collect _ (fun _ => [])).
    + now rewrite flat_map_nil.
    + intros acc p Hp. pose proof (existsb_false _ _ Hno p Hp) as Hu. cbv beta in Hu.
      destruct (using_ p); [simpl in Hu; discriminate Hu | now rewrite app_nil_r].
  - rewrite performSafetyCheck_eq. unfold Bookshelf.loaded. now rewrite Hnone.
Qed.

Lemma object_without_relations_witness :
  relations (mkModel true None [] [] None) = None
  /\ has_using Sample.AddressEntity = true
  /\ Plugin.detectRelationsToLoad (Some Sample.AddressEntity)
       (Some (mkModel true None [] [] None)) "posts."
     = Throw (TypeError "Cannot read property of undefined").
Proof.
  split; [reflexivity|]. split; [reflexivity|].
  exact (proj1 (object_without_relations Sample.AddressEntity (mkModel true None [] [] None)
                  "posts." eq_refl) eq_refl).
Defined.

(** ** The pipeline of [present] *)

(** [Model.present], stage by stage. *)
Lemma Model_present_eq er base load (options : Arg) (M : Model) (loads : list (list string)) :
  Plugin.Model_present er base load options (Plugin.mkWorld M loads)
  = match first_nonempty
            [opt_entity (ensure_object (default_arg options));
             opt_with (ensure_object (default_arg options));
             opt_using (ensure_object (default_arg options));
             defaultEntity M] with
    | None => (Ok VUndefined, Plugin.mkWorld M loads)
    | Some e =>
        match Plugin.detectRelationsToLoad (Some e) (Some M) "" with
        | Throw err => (Throw err, Plugin.mkWorld M loads)
        | Ok paths =>
            match load paths M with
            | (Throw err, M') => (Throw err, Plugin.mkWorld M' (loads ++ [paths]))
            | (Ok _, M') =>
                Plugin.Model_represent er base (Some e)
                  (ArgObject (extend_safe_false (ensure_object (default_arg options))))
                  (Plugin.mkWorld M' (loads ++ [paths]))
            end
        end
    end.
Proof.
  unfold Plugin.Model_present. unfold bind at 1. cbn [get Plugin.this].
  rewrite orElse_first_nonempty4.
  destruct (first_nonempty _) as [e|]; [|reflexivity].
  unfold bind at 1. cbn [get]. unfold bind at 1. unfold lift at 1. cbn [Plugin.this].
  destruct (Plugin.detectRelationsToLoad (Some e) (Some M) "") as [paths|err]; [|reflexivity].
  unfold bind at 1. unfold Plugin.load_if_truthy, Plugin.load.
  cbn [truthy Plugin.this Plugin.loads].
  destruct (load paths M) as [[[]|err] M']; reflexivity.
Qed.

(** X4. [Model.present] passes failures on unchanged: when the detection of
    relations throws, the promise rejects with that error and [load] is not
    called; when [load] rejects, the promise rejects with the error of
    [load] and [represent] is not run, so the receiver is as [load] left
    it. *)
Theorem present_passes_failures_on er base load (options : Arg) (M : Model)
  (loads : list (list string)) (e : Entity) :
  first_nonempty
    [opt_entity (ensure_object (default_arg options));
     opt_with (ensure_object (default_arg options));
     opt_using (ensure_object (default_arg options));
     defaultEntity M] = Some e ->
  (forall err,
     Plugin.detectRelationsToLoad (Some e) (Some M) "" = Throw err ->
     Plugin.Model_present er base load options (Plugin.mkWorld M loads)
     = (Throw err, Plugin.mkWorld M loads))
  /\ (forall paths err M',
        Plugin.detectRelationsToLoad (Some e) (Some M) "" = Ok paths ->
        load paths M = (Throw err, M') ->
        Plugin.Model_present er base load options (Plugin.mkWorld M loads)
        = (Throw err, Plugin.mkWorld M' (loads ++ [paths]))).
Proof.
  intros He. split.
  - intros err Hdetect. now rewrite Model_present_eq, He, Hdetect.
  - intros paths err M' Hdetect Hload. now rewrite Model_present_eq, He, Hdetect, Hload.
Qed.

Lemma present_passes_failures_on_witness :
  first_nonempty
    [opt_entity (Sample.with_entity Sample.UserEntity);
     opt_with (Sample.with_entity Sample.UserEntity);
     opt_using (Sample.with_entity Sample.UserEntity);
     defaultEntity Sample.user] = Some Sample.UserEntity
  /\ Plugin.Model_present JsonEntity.represent_arg Bookshelf.Model_toJSON
       (fun _ _ => (Throw (JsError "no such relation"), Sample.user_with_address))
       (ArgObject (Sample.with_entity Sample.UserEntity)) (Plugin.mkWorld Sample.user [])
     = (Throw (JsError "no such relation"),
        Plugin.mkWorld Sample.user_with_address [["address"; "address.city"]]).
Proof.
  split; [reflexivity|].
  exact (proj2 (present_passes_failures_on JsonEntity.represent_arg Bookshelf.Model_toJSON
                  (fun _ _ => (Throw (JsError "no such relation"), Sample.user_with_address))
                  (ArgObject (Sample.with_entity Sample.UserEntity)) Sample.user []
                  Sample.UserEntity eq_refl)
           ["address"; "address.city"] (JsError "no such relation")
           Sample.user_with_address eq_refl eq_refl).
Defined.

Lemma Model_represent_world er base (entity : option Entity) (options : Arg)
  (w : Plugin.World Model) :
  snd (Plugin.Model_represent er base entity options w) = w.
Proof. destruct entity as [E|]; [|reflexivity]. now rewrite Model_represent_eq. Qed.

(** X5. [Model.present] calls [load] exactly once whenever an entity is
    resolved and the detection returns, with the detected paths, also when
    there are none: for an entity without a rule that has [using] it calls
    [load] with the empty list. When no entity is resolved it fulfils with
    [undefined] and calls nothing. *)
Theorem present_always_loads er base load (options : Arg) (M : Model)
  (loads : list (list string)) :
  (first_nonempty
     [opt_entity (ensure_object (default_arg options));
      opt_with (ensure_object (default_arg options));
      opt_using (ensure_object (default_arg options));
      defaultEntity M] = None ->
   Plugin.Model_present er base load options (Plugin.mkWorld M loads)
   = (Ok VUndefined, Plugin.mkWorld M loads))
  /\ (forall e paths,
        first_nonempty
          [opt_entity (ensure_object (default_arg options));
           opt_with (ensure_object (default_arg options));
           opt_using (ensure_object (default_arg options));
           defaultEntity M] = Some e ->
        Plugin.detectRelationsToLoad (Some e) (Some M) "" = Ok paths ->
        Plugin.loads (snd (Plugin.Model_present er base load options (Plugin.mkWorld M loads)))
        = loads ++ [paths])
  /\ (forall e,
        first_nonempty
          [opt_entity (ensure_object (default_arg options));
           opt_with (ensure_object (default_arg options));
           opt_using (ensure_object (default_arg options));
           defaultEntity M] = Some e ->
        has_using e = false ->
        Plugin.loads (snd (Plugin.Model_present er base load options (Plugin.mkWorld M loads)))
        = loads ++ [[]]).
Proof.
  assert (forall e paths,
            first_nonempty
              [opt_entity (ensure_object (default_arg options));
               opt_with (ensure_object (default_arg options));
               opt_using (ensure_object (default_arg options));
               defaultEntity M] = Some e ->
            Plugin.detectRelationsToLoad (Some e) (Some M) "" = Ok paths ->
            Plugin.loads (snd (Plugin.Model_present er base load options
                                 (Plugin.mkWorld M loads)))
            = loads ++ [paths]) as Hloads.
  { intros e paths He Hdetect. rewrite Model_present_eq, He, Hdetect.
    destruct (load paths M) as [[[]|err] M']; [|reflexivity].
    now rewrite Model_represent_world. }
  repeat split.
  - intros Hnone. now rewrite Model_present_eq, Hnone.
  - exact Hloads.
  - intros e He Hno. apply (Hloads e [] He).
    cbn [Plugin.detectRelationsToLoad]. rewrite detectRelations_eq.
    rewrite (reduce_collect _ (fun _ => [])).
    + now rewrite flat_map_nil.
    + intros acc p Hp. pose proof (existsb_false _ _ Hno p Hp) as Hu. cbv beta in Hu.
      destruct (using_ p); [simpl in Hu; discriminate Hu | now rewrite app_nil_r].
Qed.

Lemma present_always_loads_witness :
  first_nonempty
    [opt_entity (Sample.with_entity Sample.TravellerEntity);
     opt_with (Sample.with_entity Sample.TravellerEntity);
     opt_using (Sample.with_entity Sample.TravellerEntity);
     defaultEntity Sample.traveller] = Some Sample.TravellerEntity
  /\ has_using Sample.TravellerEntity = false
  /\ Plugin.loads (snd (Plugin.Model_present JsonEntity.represent_arg Bookshelf.Model_toJSON
                          Bookshelf.load_nothing
                          (ArgObject (Sample.with_entity Sample.TravellerEntity))
                          (Plugin.mkWorld Sample.traveller [])))
     = [] ++ [[]].
Proof.
  split; [reflexivity|]. split; [reflexivity|].
  exact (proj2 (proj2 (present_always_loads JsonEntity.represent_arg Bookshelf.Model_toJSON
                         Bookshelf.load_nothing
                         (ArgObject (Sample.with_entity Sample.TravellerEntity))
                         Sample.traveller []))
           Sample.TravellerEntity eq_refl eq_refl).
Defined.

(** X6. [Model.present] represents the model as [load] left it, with the
    caller's options extended by [safe: false]. With [entitySafeMode]
    enabled and no truthy [shallow] the relation check is made on the
    loaded model, so a relation brought in by [load] and exposed without
    [using] makes the promise reject, and when no relation of the loaded
    model is unsafe the promise settles as the entity's representation of
    the base serialization. With [entitySafeMode] off or a truthy [shallow]
    there is no check: the promise settles as that representation whatever
    is loaded. *)
Theorem present_represents_loaded_model er base load (options : Arg) (M M' : Model)
  (loads : list (list string)) (e : Entity) (paths : list string) :
  first_nonempty
    [opt_entity (ensure_object (default_arg options));
     opt_with (ensure_object (default_arg options));
     opt_using (ensure_object (default_arg options));
     defaultEntity M] = Some e ->
  Plugin.detectRelationsToLoad (Some e) (Some M) "" = Ok paths ->
  load paths M = (Ok tt, M') ->
  (entitySafeMode M' = true ->
   truthy (opt_shallow (ensure_object (default_arg options))) = false ->
   ((exists r, Unsafe e M' r) ->
    exists r, Unsafe e M' r
      /\ Plugin.Model_present er base load options (Plugin.mkWorld M loads)
         = (Throw (JsError (unsafe_message r)), Plugin.mkWorld M' (loads ++ [paths])))
   /\ ((forall r, ~ Unsafe e M' r) ->
       Plugin.Model_present er base load options (Plugin.mkWorld M loads)
       = (res_bind
            (base M' (ArgObject (extend_safe_false (ensure_object (default_arg options)))))
            (fun json =>
               er e json (ArgObject (extend_safe_false (ensure_object (default_arg options))))),
          Plugin.mkWorld M' (loads ++ [paths]))))
  /\ (entitySafeMode M' = false
      \/ truthy (opt_shallow (ensure_object (default_arg options))) = true ->
      Plugin.Model_present er base load options (Plugin.mkWorld M loads)
      = (res_bind
           (base M' (ArgObject (extend_safe_false (ensure_object (default_arg options)))))
           (fun json =>
              er e json (ArgObject (extend_safe_false (ensure_object (default_arg options))))),
         Plugin.mkWorld M' (loads ++ [paths]))).
Proof.
  intros He Hdetect Hload.
  assert (Plugin.Model_present er base load options (Plugin.mkWorld M loads)
          = (res_bind
               (if entitySafeMode M'
                     && negb (truthy (opt_shallow (ensure_object (default_arg options))))
                then Plugin.performSafetyCheck e M' else Ok tt)
               (fun _ =>
                  res_bind
                    (base M' (ArgObject (extend_safe_false (ensure_object (default_arg options)))))
                    (fun json =>
                       er e json
                         (ArgObject (extend_safe_false (ensure_object (default_arg options)))))),
             Plugin.mkWorld M' (loads ++ [paths]))) as Hrun.
  { rewrite Model_present_eq, He, Hdetect, Hload, Model_represent_eq.
    cbn [Plugin.this default_arg]. unfold Plugin.check_enabled.
    cbn [arg_shallow extend_safe_false opt_shallow].
    destruct (entitySafeMode M'); [|reflexivity]. cbn [res_bind andb].
    destruct (truthy (opt_shallow (ensure_object (default_arg options)))); reflexivity. }
  rewrite Hrun. split.
  - intros Hsafe Hshallow. rewrite Hsafe, Hshallow. cbn [negb andb]. split.
    + intros [r Hr]. destruct (performSafetyCheck_spec e M') as [[Hno _]|(r' & Hr' & ->)].
      * destruct (Hno r Hr).
      * exists r'. split; [assumption | reflexivity].
    + intros Hno. destruct (performSafetyCheck_spec e M') as [[_ ->]|(r' & Hr' & _)].
      * reflexivity.
      * destruct (Hno r' Hr').
  - intros [-> | ->]; [reflexivity|]. now rewrite andb_false_r.
Qed.

Lemma present_represents_loaded_model_witness :
  exists r, Unsafe Sample.OpenUserEntity Sample.user_with_address r
    /\ Plugin.Model_present JsonEntity.represent_arg Bookshelf.Model_toJSON
         (fun _ _ => (Ok tt, Sample.user_with_address))
         (ArgObject (Sample.with_entity Sample.OpenUserEntity)) (Plugin.mkWorld Sample.user [])
       = (Throw (JsError (unsafe_message r)), Plugin.mkWorld Sample.user_with_address [[]]).
Proof.
  refine (proj1 (proj1 (present_represents_loaded_model JsonEntity.represent_arg
                          Bookshelf.Model_toJSON (fun _ _ => (Ok tt, Sample.user_with_address))
                          (ArgObject (Sample.with_entity Sample.OpenUserEntity))
                          Sample.user Sample.user_with_address [] Sample.OpenUserEntity []
                          eq_refl eq_refl eq_refl) eq_refl eq_refl) _).
  exists "address".
  apply (Unsafe_here Sample.OpenUserEntity Sample.user_with_address
           [("address", Sample.address)] "address" (expose "address"));
    [reflexivity | now left | right; now left | reflexivity | reflexivity].
Defined.

(** ** The relation check on collections and in src/index.js *)

(** The check of [Collection.represent], over all models. *)
Lemma Collection_represent_checked er cbase (E : Entity) (C : Collection)
  (options : Arg) (loads : list (list string)) :
  model_entitySafeMode C = true ->
  lacks_shallow options = true ->
  ((exists m r, In m (models C) /\ Unsafe E m r) ->
   exists m r, In m (models C) /\ Unsafe E m r
     /\ Plugin.Collection_represent er cbase (Some E) options (Plugin.mkWorld C loads)
        = (Throw (JsError (unsafe_message r)), Plugin.mkWorld C loads))
  /\ ((forall m r, In m (models C) -> ~ Unsafe E m r) ->
      Plugin.Collection_represent er cbase (Some E) options (Plugin.mkWorld C loads)
      = (res_bind (cbase C (default_arg options))
           (fun json => er E json (default_arg options)), Plugin.mkWorld C loads)).
Proof.
  intros Hsafe Hshallow.
  assert (Plugin.Collection_represent er cbase (Some E) options (Plugin.mkWorld C loads)
          = (res_bind (forEach (models C) (fun model => Plugin.performSafetyCheck E model))
               (fun _ => res_bind (cbase C (default_arg options))
                           (fun json => er E json (default_arg options))),
             Plugin.mkWorld C loads)) as Hrun.
  { rewrite Collection_represent_eq. cbn [Plugin.this].
    now rewrite Hsafe, (check_enabled_on options Hshallow). }
  rewrite Hrun.
  destruct (res_unit_cases (forEach (models C) (fun model => Plugin.performSafetyCheck E model)))
    as [Hok|[e He]].
  - split.
    + intros (m & r & Hm & Hr). exfalso.
      destruct (performSafetyCheck_complete E m r Hr) as [e He].
      pose proof (forEach_Ok_inv _ _ Hok m Hm) as Hm'. cbv beta in Hm'. congruence.
    + intros _. now rewrite Hok.
  - pose proof He as Hthrow. apply forEach_Throw_inv in He. destruct He as (m & Hm & He).
    destruct (performSafetyCheck_sound E m e He) as (r & Hr & ->).
    split.
    + intros _. exists m, r. rewrite Hthrow. now repeat split.
    + intros Hno. destruct (Hno m r Hm Hr).
Qed.


(** X7. [Collection.represent] of the plugin checks every model of the
    collection: with [entitySafeMode] enabled on the model class and no
    truthy [shallow], it throws the unsafe-relation error as soon as one
    model has an unsafe relation, naming an unsafe relation of one of the
    models; when no model has one, the check passes and the result is the
    entity's representation of the base serialization. *)
Theorem collection_represent_checks_every_model er cbase (E : Entity) (C : Collection)
  (options : Arg) (loads : list (list string)) :
  model_entitySafeMode C = true ->
  lacks_shallow options = true ->
  ((exists m r, In m (models C) /\ Unsafe E m r) ->
   exists m r, In m (models C) /\ Unsafe E m r
     /\ Plugin.Collection_represent er cbase (Some E) options (Plugin.mkWorld C loads)
        = (Throw (JsError (unsafe_message r)), Plugin.mkWorld C loads))
  /\ ((forall m r, In m (models C) -> ~ Unsafe E m r) ->
      Plugin.Collection_represent er cbase (Some E) options (Plugin.mkWorld C loads)
      = (res_bind (cbase C (default_arg options))
           (fun json => er E json (default_arg options)), Plugin.mkWorld C loads)).
Proof. exact (Collection_represent_checked er cbase E C options loads). Qed.

Lemma collection_represent_checks_every_model_witness :
  model_entitySafeMode (Sample.users [Sample.user; Sample.user_with_address]) = true
  /\ lacks_shallow ArgUndefined = true
  /\ exists m r,
       In m (models (Sample.users [Sample.user; Sample.user_with_address]))
       /\ Unsafe Sample.OpenUserEntity m r
       /\ Plugin.Collection_represent JsonEntity.represent_arg Bookshelf.Collection_toJSON
            (Some Sample.OpenUserEntity) ArgUndefined
            (Plugin.mkWorld (Sample.users [Sample.user; Sample.user_with_address]) [])
          = (Throw (JsError (unsafe_message r)),
             Plugin.mkWorld (Sample.users [Sample.user; Sample.user_with_address]) []).
Proof.
  split; [reflexivity|]. split; [reflexivity|].
  apply (proj1 (collection_represent_checks_every_model JsonEntity.represent_arg
                  Bookshelf.Collection_toJSON Sample.OpenUserEntity
                  (Sample.users [Sample.user; Sample.user_with_address]) ArgUndefined []
                  eq_refl eq_refl)).
  exists Sample.user_with_address, "address". split; [right; now left|].
  apply (Unsafe_here Sample.OpenUserEntity Sample.user_with_address
           [("address", Sample.address)] "address" (expose "address"));
    [reflexivity | now left | right; now left | reflexivity | reflexivity].
Defined.

(** The one-level check of src/index.js either passes, on a model whose top
    level is clean, or throws the error of a relation exposed without
    [using] at the top level. *)
Lemma checkRelations_spec (E : Entity) (M : Model) rels :
  relations M = Some rels ->
  (top_level_clean E M = true /\ checkRelations E M = Ok tt)
  \/ (top_level_clean E M = false
      /\ exists r p, In r (keys rels) /\ In p (properties E) /\ key p = r
           /\ using_ p = None
           /\ checkRelations E M = Throw (JsError (unsafe_message r))).
Proof.
  intros Hrels. unfold checkRelations, top_level_clean.
  rewrite Hrels, (loaded_Some M rels Hrels).
  match goal with
  | |- (_ /\ ?c = Ok tt) \/ _ => destruct (res_unit_cases c) as [Hok|[e He]]
  end.
  - left. split; [|assumption].
    apply forallb_forall. intros r Hr. apply forallb_forall. intros p Hp.
    pose proof (forEach_Ok_inv _ _ (forEach_Ok_inv _ _ Hok r Hr) p Hp) as Hbody.
    cbv beta in Hbody.
    destruct (r =? key p); [|reflexivity].
    destruct (using_ p); [reflexivity | discriminate].
  - right. pose proof He as Hthrow.
    apply forEach_Throw_inv in He. destruct He as (r & Hr & He).
    apply forEach_Throw_inv in He. destruct He as (p & Hp & He).
    destruct (String.eqb_spec r (key p)) as [Heq|]; [|discriminate].
    destruct (using_ p) as [u|] eqn:Hu; [discriminate|].
    cbn in He. injection He as <-. split.
    + destruct (forallb _ (keys rels)) eqn:Hclean; [|reflexivity].
      rewrite forallb_forall in Hclean. specialize (Hclean r Hr).
      rewrite forallb_forall in Hclean. specialize (Hclean p Hp).
      rewrite Heq, String.eqb_refl, Hu in Hclean. discriminate.
    + exists r, p. rewrite Hthrow. now repeat split.
Qed.

Lemma IndexA_Model_represent_same er base (this : Model) (entity : option Entity) :
  IndexA.Model_represent er base this entity = IndexB.Model_represent er base this entity.
Proof. reflexivity. Qed.

(** X8. The relation check that both definitions of src/index.js make in
    [represent] looks at one level only. On a model with a [relations]
    mapping, with [entitySafeMode] enabled and no truthy [shallow],
    [represent] throws the unsafe-relation error, naming a loaded relation
    of the model itself, exactly when some loaded relation of the model has
    the name of a property without [using]; otherwise the check passes,
    whatever is loaded below, and the result is the entity's representation
    of the base serialization. *)
Theorem one_level_check er base (E : Entity) (M : Model) rels (o : Options) :
  relations M = Some rels ->
  entitySafeMode M = true ->
  truthy (opt_shallow o) = false ->
  (top_level_clean E M = true ->
   IndexB.Model_represent er base M (Some E) o
   = match base M o with
     | (Ok json, o') => (er E json o', o')
     | (Throw e, o') => (Throw e, o')
     end
   /\ IndexA.Model_represent er base M (Some E) o
      = IndexB.Model_represent er base M (Some E) o)
  /\ (top_level_clean E M = false ->
      exists r p, In r (keys rels) /\ In p (properties E) /\ key p = r /\ using_ p = None
        /\ IndexB.Model_represent er base M (Some E) o
           = (Throw (JsError (unsafe_message r)), o)
        /\ IndexA.Model_represent er base M (Some E) o
           = (Throw (JsError (unsafe_message r)), o)).
Proof.
  intros Hrels Hsafe Hshallow.
  assert (IndexB.Model_represent er base M (Some E) o
          = match checkRelations E M with
            | Throw e => (Throw e, o)
            | Ok _ =>
                match base M o with
                | (Ok json, o') => (er E json o', o')
                | (Throw e, o') => (Throw e, o')
                end
            end) as Hrun.
  { rewrite IndexB_Model_represent_eq, Hsafe, Hshallow. reflexivity. }
  split.
  - intros Hclean. split; [|reflexivity]. rewrite Hrun.
    destruct (checkRelations_spec E M rels Hrels) as [[_ ->]|[Hno _]]; [reflexivity|congruence].
  - intros Hdirty.
    destruct (checkRelations_spec E M rels Hrels)
      as [[Hclean _]|(_ & r & p & Hr & Hp & Hk & Hu & Hthrow)]; [congruence|].
    rewrite Hthrow in Hrun.
    exists r, p. repeat split; try assumption; exact Hrun.
Qed.

Lemma one_level_check_witness :
  relations Sample.user_with_city = Some [("address", Sample.address_with_city)]
  /\ entitySafeMode Sample.user_with_city = true
  /\ truthy (opt_shallow empty_options) = false
  /\ top_level_clean Sample.UserOpenAddressEntity Sample.user_with_city = true
  /\ IndexB.Model_represent JsonEntity.represent_on Bookshelf.raw Sample.user_with_city
       (Some Sample.UserOpenAddressEntity) empty_options
     = match Bookshelf.raw Sample.user_with_city empty_options with
       | (Ok json, o') => (JsonEntity.represent_on Sample.UserOpenAddressEntity json o', o')
       | (Throw e, o') => (Throw e, o')
       end.
Proof.
  split; [reflexivity|]. split; [reflexivity|]. split; [reflexivity|]. split; [reflexivity|].
  exact (proj1 (proj1 (one_level_check JsonEntity.represent_on Bookshelf.raw
                         Sample.UserOpenAddressEntity Sample.user_with_city
                         [("address", Sample.address_with_city)] empty_options
                         eq_refl eq_refl eq_refl) eq_refl)).
Defined.

(** X9. The recursive check of the plugin rejects whatever the one-level
    check of src/index.js rejects: on a model with a [relations] mapping,
    if the one-level check throws then the recursive check throws the
    unsafe-relation error too, and if the recursive check passes so does the
    one-level check. The converse fails: a relation exposed without
    [using] below the top level passes the one-level check only. *)
Theorem recursive_check_is_stricter (E : Entity) (M : Model) rels :
  relations M = Some rels ->
  (forall e, checkRelations E M = Throw e ->
     exists r, Unsafe E M r
       /\ Plugin.performSafetyCheck E M = Throw (JsError (unsafe_message r)))
  /\ (Plugin.performSafetyCheck E M = Ok tt -> checkRelations E M = Ok tt)
  /\ (checkRelations Sample.UserOpenAddressEntity Sample.user_with_city = Ok tt
      /\ Plugin.performSafetyCheck Sample.UserOpenAddressEntity Sample.user_with_city
         = Throw (JsError (unsafe_message "city"))).
Proof.
  intros Hrels.
  assert (forall e, checkRelations E M = Throw e -> exists r, Unsafe E M r) as Hunsafe.
  { intros e He.
    destruct (checkRelations_spec E M rels Hrels)
      as [[_ Hok]|(_ & r & p & Hr & Hp & Hk & Hu & _)]; [congruence|].
    exists r. eapply Unsafe_here; eauto. }
  repeat split.
  - intros e He. destruct (Hunsafe e He) as [r Hr].
    destruct (performSafetyCheck_spec E M) as [[Hno _]|Hex]; [destruct (Hno r Hr)|exact Hex].
  - intros Hok. destruct (res_unit_cases (checkRelations E M)) as [H|[e He]]; [assumption|].
    destruct (Hunsafe e He) as [r Hr].
    destruct (performSafetyCheck_complete E M r Hr) as [e' He']. congruence.
Qed.

Lemma recursive_check_is_stricter_witness :
  relations Sample.user_with_address = Some [("address", Sample.address)]
  /\ checkRelations Sample.OpenUserEntity Sample.user_with_address
     = Throw (JsError (unsafe_message "address"))
  /\ exists r, Unsafe Sample.OpenUserEntity Sample.user_with_address r
       /\ Plugin.performSafetyCheck Sample.OpenUserEntity Sample.user_with_address
          = Throw (JsError (unsafe_message r)).
Proof.
  split; [reflexivity|]. split; [reflexivity|].
  exact (proj1 (recursive_check_is_stricter Sample.OpenUserEntity Sample.user_with_address
                  [("address", Sample.address)] eq_refl)
           (JsError (unsafe_message "address")) eq_refl).
Defined.

(** ** The root flag over several calls *)

Lemma IndexB_toJSON_root er base (M : Model) (o : Options) :
  truthy (opt_entityRoot o) = false ->
  IndexB.Model_toJSON er base M (ArgObject o)
  = IndexB.Model_represent er base M (orElse (opt_entity o) (defaultEntity M))
      (set_entityRoot o).
Proof.
  intros Hflag. unfold IndexB.Model_toJSON, IndexB.Model_toJSON_on.
  cbn [default_arg ensure_object]. unfold bind at 1. cbn [get].
  rewrite Hflag. reflexivity.
Qed.

Lemma IndexB_toJSON_flagged er base (M : Model) (o : Options) :
  truthy (opt_entityRoot o) = true ->
  IndexB.Model_toJSON er base M (ArgObject o) = base M o.
Proof.
  intros Hflag. unfold IndexB.Model_toJSON, IndexB.Model_toJSON_on.
  cbn [default_arg ensure_object]. unfold bind at 1. cbn [get].
  rewrite Hflag. reflexivity.
Qed.

(** X10. The flag is never cleared. On a host whose base serialization does
    not clear it either, a first [toJSON(opts)] leaves [opts.entityRoot]
    set, whether it returns or throws, so a second [toJSON] with the same
    options object, on any model, returns the base serialization and
    applies no entity. *)
Theorem flag_is_never_cleared er base (M M' : Model) (o : Options) :
  (forall m o', truthy (opt_entityRoot o') = true ->
                truthy (opt_entityRoot (snd (base m o'))) = true) ->
  truthy (opt_entityRoot o) = false ->
  truthy (opt_entityRoot (snd (IndexB.Model_toJSON er base M (ArgObject o)))) = true
  /\ IndexB.Model_toJSON er base M'
       (ArgObject (snd (IndexB.Model_toJSON er base M (ArgObject o))))
     = base M' (snd (IndexB.Model_toJSON er base M (ArgObject o)))
  /\ IndexA.Model_toJSON er base M'
       (ArgObject (snd (IndexA.Model_toJSON er base M (ArgObject o))))
     = base M' (snd (IndexA.Model_toJSON er base M (ArgObject o))).
Proof.
  intros Hbase Hflag.
  assert (truthy (opt_entityRoot (snd (IndexB.Model_toJSON er base M (ArgObject o)))) = true)
    as Hset.
  { rewrite (IndexB_toJSON_root er base M o Hflag).
    destruct (orElse (opt_entity o) (defaultEntity M)) as [E|]; [|reflexivity].
    rewrite IndexB_Model_represent_eq.
    pose proof (Hbase M (set_entityRoot o) eq_refl) as Hkept.
    destruct (entitySafeMode M && negb (truthy (opt_shallow (set_entityRoot o))));
      [destruct (checkRelations E M) as [[]|err]; [|reflexivity]|];
      destruct (base M (set_entityRoot o)) as [[json|err] o']; exact Hkept. }
  split; [exact Hset|]. split.
  - exact (IndexB_toJSON_flagged er base M' _ Hset).
  - exact (IndexB_toJSON_flagged er base M' _ Hset).
Qed.

Lemma flag_is_never_cleared_witness :
  truthy (opt_entityRoot (Sample.with_entity Sample.UserEntity)) = false
  /\ IndexB.Model_toJSON JsonEntity.represent_on Bookshelf.raw Sample.other_user
       (ArgObject (snd (IndexB.Model_toJSON JsonEntity.represent_on Bookshelf.raw Sample.user
                          (ArgObject (Sample.with_entity Sample.UserEntity)))))
     = Bookshelf.raw Sample.other_user
         (snd (IndexB.Model_toJSON JsonEntity.represent_on Bookshelf.raw Sample.user
                 (ArgObject (Sample.with_entity Sample.UserEntity)))).
Proof.
  split; [reflexivity|].
  exact (proj1 (proj2 (flag_is_never_cleared JsonEntity.represent_on Bookshelf.raw
                         Sample.user Sample.other_user
                         (Sample.with_entity Sample.UserEntity)
                         (fun m o' H => H) eq_refl))).
Defined.

(** ** Collections of the first definition in src/index.js *)

Lemma hooked_toJSON_root er (M : Model) (o : Options) :
  truthy (opt_entityRoot o) = false ->
  Bookshelf.hooked_toJSON er M o
  = IndexB.Model_represent er Bookshelf.raw M (orElse (opt_entity o) (defaultEntity M))
      (set_entityRoot o).
Proof.
  intros Hflag. rewrite hooked_toJSON_eq.
  change (IndexB.Model_toJSON_on er (Bookshelf.serialize_with (Bookshelf.hooked_toJSON er)) M o)
    with (IndexB.Model_toJSON er (Bookshelf.serialize_with (Bookshelf.hooked_toJSON er)) M
            (ArgObject o)).
  rewrite (IndexB_toJSON_root _ _ M o Hflag).
  destruct (orElse (opt_entity o) (defaultEntity M)) as [E|]; [|reflexivity].
  rewrite !IndexB_Model_represent_eq.
  now rewrite (serialize_with_flagged er M (set_entityRoot o) eq_refl).
Qed.





Lemma each_call_without_object er (ms : list Model) (arg : Arg) :
  is_object arg = false ->
  (forall m, In m ms -> defaultEntity m = None) ->
  Bookshelf.each_toJSON (Bookshelf.call_toJSON (Bookshelf.hooked_call er)) ms arg
  = (Ok (map (fun _ => VUndefined) ms), arg).
Proof.
  intros Harg. induction ms as [|m ms IH]; intros Hnone; [reflexivity|].
  cbn [Bookshelf.each_toJSON map]. unfold bind at 1.
  assert (Bookshelf.call_toJSON (Bookshelf.hooked_call er) m arg = (Ok VUndefined, arg)) as ->.
  { unfold Bookshelf.call_toJSON, Bookshelf.hooked_call.
    assert (ensure_object (default_arg arg) = empty_options) as ->
      by (destruct arg; [discriminate Harg | reflexivity..]).
    rewrite (hooked_toJSON_root er m empty_options eq_refl).
    cbn [opt_entity empty_options orElse]. rewrite (Hnone m (or_introl eq_refl)).
    destruct arg; [discriminate Harg | reflexivity..]. }
  unfold bind at 1. rewrite IH by (intros m' Hm'; apply Hnone; now right). reflexivity.
Qed.

Lemma filter_truthy_undefined {A : Type} (xs : list A) :
  filter truthy (map (fun _ => VUndefined) xs) = [].
Proof. induction xs as [|x xs IH]; [reflexivity | exact IH]. Qed.

(** X12. Without an entity a collection serializes to the empty array. In
    the first definition of src/index.js this holds when [toJSON] is called
    without an options object and no model has a default entity: every
    model answers [undefined], and the falsy entries are dropped. In the
    second definition it holds, when the model class has no default entity,
    for a call without an options object and for an options object without
    an [entity] on which [entityRoot] is not set: [represent] is reached
    with no entity and the models are not serialized at all. On an options
    object with [entityRoot] already set the second definition returns the
    base serialization instead, entity or not. *)
Theorem collection_without_entity_is_empty er cbase (C : Collection) (arg : Arg)
  (o : Options) :
  (is_object arg = false ->
   (forall m, In m (models C) -> defaultEntity m = None) ->
   IndexA.Collection_toJSON (Bookshelf.hooked_collection_args er) C arg
   = (Ok (VArr []), arg))
  /\ (model_defaultEntity C = None ->
      truthy (opt_entityRoot o) = false ->
      opt_entity o = None ->
      IndexB.Collection_toJSON er cbase C (ArgObject o) = (Ok (VArr []), set_entityRoot o))
  /\ (model_defaultEntity C = None ->
      is_object arg = false ->
      IndexB.Collection_toJSON er cbase C arg = (Ok (VArr []), set_entityRoot empty_options))
  /\ (truthy (opt_entityRoot o) = true ->
      IndexB.Collection_toJSON er cbase C (ArgObject o)
      = match cbase C o with
        | (Ok items, o') => (Ok (VArr items), o')
        | (Throw err, o') => (Throw err, o')
        end).
Proof.
  repeat split.
  - intros Harg Hnone.
    unfold IndexA.Collection_toJSON, Bookshelf.hooked_collection_args,
      Bookshelf.collection_serialize_with, bind.
    rewrite (each_call_without_object er (models C) arg Harg Hnone).
    unfold ret. now rewrite filter_truthy_undefined.
  - intros Hdefault Hflag Hentity.
    unfold IndexB.Collection_toJSON, IndexB.Collection_toJSON_on.
    cbn [default_arg ensure_object]. unfold bind at 1. cbn [get].
    rewrite Hflag. cbn [negb]. unfold bind, modify, get.
    cbn [set_entityRoot opt_entity]. rewrite Hentity, Hdefault. reflexivity.
  - intros Hdefault Harg.
    unfold IndexB.Collection_toJSON, IndexB.Collection_toJSON_on.
    assert (ensure_object (default_arg arg) = empty_options) as ->
      by (destruct arg; [discriminate Harg | reflexivity..]).
    unfold bind at 1. cbn [get empty_options opt_entityRoot truthy negb].
    unfold bind, modify, get. cbn [set_entityRoot opt_entity orElse].
    rewrite Hdefault. reflexivity.
  - intros Hflag.
    unfold IndexB.Collection_toJSON, IndexB.Collection_toJSON_on.
    cbn [default_arg ensure_object]. unfold bind at 1. cbn [get].
    rewrite Hflag. cbn [negb]. unfold bind, ret.
    destruct (cbase C o) as [[items|err] o']; reflexivity.
Qed.

Lemma collection_without_entity_is_empty_witness :
  is_object ArgNull = false
  /\ IndexA.Collection_toJSON (Bookshelf.hooked_collection_args JsonEntity.represent_on)
       (Sample.users [Sample.user; Sample.user_with_city]) ArgNull
     = (Ok (VArr []), ArgNull).
Proof.
  split; [reflexivity|].
  apply (proj1 (collection_without_entity_is_empty JsonEntity.represent_on
                  (Bookshelf.hooked_collection JsonEntity.represent_on)
                  (Sample.users [Sample.user; Sample.user_with_city]) ArgNull empty_options)
           eq_refl).
  intros m [<-|[<-|[]]]; reflexivity.
Defined.

(** ** Collections: [present], and the one-level check *)

(** [Collection.present], stage by stage. *)
Lemma Collection_present_eq er cbase cload (options : Arg) (C : Collection)
  (loads : list (list string)) :
  Plugin.Collection_present er cbase cload options (Plugin.mkWorld C loads)
  = match first_nonempty
            [opt_entity (ensure_object (default_arg options));
             opt_with (ensure_object (default_arg options));
             opt_using (ensure_object (default_arg options));
             model_defaultEntity C] with
    | None => (Ok (VArr []), Plugin.mkWorld C loads)
    | Some e =>
        match first C with
        | None => (Ok (VArr []), Plugin.mkWorld C loads)
        | Some m =>
            match Plugin.detectRelationsToLoad (Some e) (Some m) "" with
            | Throw err => (Throw err, Plugin.mkWorld C loads)
            | Ok paths =>
                match cload paths C with
                | (Throw err, C') => (Throw err, Plugin.mkWorld C' (loads ++ [paths]))
                | (Ok _, C') =>
                    Plugin.Collection_represent er cbase (Some e)
                      (ArgObject (extend_safe_false (ensure_object (default_arg options))))
                      (Plugin.mkWorld C' (loads ++ [paths]))
                end
            end
        end
    end.
Proof.
  unfold Plugin.Collection_present. unfold bind at 1. cbn [get Plugin.this].
  rewrite orElse_first_nonempty4.
  destruct (first_nonempty _) as [e|]; [|reflexivity].
  destruct C as [s d [|m ms]]; [reflexivity|].
  cbn [size models length Nat.eqb first head].
  unfold bind at 1. cbn [get]. unfold bind at 1. unfold lift at 1.
  cbn [Plugin.this first models head].
  destruct (Plugin.detectRelationsToLoad (Some e) (Some m) "") as [paths|err]; [|reflexivity].
  unfold bind at 1. unfold Plugin.load_if_truthy, Plugin.load.
  cbn [truthy Plugin.this Plugin.loads].
  destruct (cload paths _) as [[[]|err] C']; reflexivity.
Qed.

(** X13. [Collection.present] detects on the first model but represents,
    and checks, the whole collection as [load] left it. With
    [entitySafeMode] enabled on the model class and no truthy [shallow], a
    relation exposed without [using] on any model makes the promise reject
    with the unsafe-relation error, and when no model has one the promise
    settles as the entity's representation of the base serialization of
    the loaded collection; with [entitySafeMode] off or a truthy [shallow]
    there is no check and the promise settles as that representation. A
    rejection of [load] is the rejection of [present]. *)
Theorem collection_present_checks_every_model er cbase cload (options : Arg)
  (C C' : Collection) (loads : list (list string)) (e : Entity) (m : Model)
  (paths : list string) :
  first_nonempty
    [opt_entity (ensure_object (default_arg options));
     opt_with (ensure_object (default_arg options));
     opt_using (ensure_object (default_arg options));
     model_defaultEntity C] = Some e ->
  first C = Some m ->
  Plugin.detectRelationsToLoad (Some e) (Some m) "" = Ok paths ->
  (forall err,
     cload paths C = (Throw err, C') ->
     Plugin.Collection_present er cbase cload options (Plugin.mkWorld C loads)
     = (Throw err, Plugin.mkWorld C' (loads ++ [paths])))
  /\ (cload paths C = (Ok tt, C') ->
      model_entitySafeMode C' = true ->
      truthy (opt_shallow (ensure_object (default_arg options))) = false ->
      ((exists m' r, In m' (models C') /\ Unsafe e m' r) ->
       exists m' r, In m' (models C') /\ Unsafe e m' r
         /\ Plugin.Collection_present er cbase cload options (Plugin.mkWorld C loads)
            = (Throw (JsError (unsafe_message r)), Plugin.mkWorld C' (loads ++ [paths])))
      /\ ((forall m' r, In m' (models C') -> ~ Unsafe e m' r) ->
          Plugin.Collection_present er cbase cload options (Plugin.mkWorld C loads)
          = (res_bind
               (cbase C' (ArgObject (extend_safe_false (ensure_object (default_arg options)))))
               (fun json =>
                  er e json
                    (ArgObject (extend_safe_false (ensure_object (default_arg options))))),
             Plugin.mkWorld C' (loads ++ [paths]))))
  /\ (cload paths C = (Ok tt, C') ->
      model_entitySafeMode C' = false
      \/ truthy (opt_shallow (ensure_object (default_arg options))) = true ->
      Plugin.Collection_present er cbase cload options (Plugin.mkWorld C loads)
      = (res_bind
           (cbase C' (ArgObject (extend_safe_false (ensure_object (default_arg options)))))
           (fun json =>
              er e json
                (ArgObject (extend_safe_false (ensure_object (default_arg options))))),
         Plugin.mkWorld C' (loads ++ [paths]))).
Proof.
  intros He Hm Hdetect.
  assert (cload paths C = (Ok tt, C') ->
          Plugin.Collection_present er cbase cload options (Plugin.mkWorld C loads)
          = Plugin.Collection_represent er cbase (Some e)
              (ArgObject (extend_safe_false (ensure_object (default_arg options))))
              (Plugin.mkWorld C' (loads ++ [paths]))) as Hloaded
    by (intros Hload; now rewrite Collection_present_eq, He, Hm, Hdetect, Hload).
  split; [|split].
  - intros err Hload. now rewrite Collection_present_eq, He, Hm, Hdetect, Hload.
  - intros Hload Hsafe Hshallow. rewrite (Hloaded Hload).
    apply (Collection_represent_checked er cbase e C'
             (ArgObject (extend_safe_false (ensure_object (default_arg options))))
             (loads ++ [paths]) Hsafe).
    cbn [lacks_shallow extend_safe_false opt_shallow]. now rewrite Hshallow.
  - intros Hload Hoff. rewrite (Hloaded Hload), Collection_represent_eq.
    cbn [Plugin.this default_arg]. unfold Plugin.check_enabled.
    destruct Hoff as [->|Hshallow]; [reflexivity|].
    destruct (model_entitySafeMode C'); [|reflexivity].
    cbn [arg_shallow extend_safe_false opt_shallow res_bind]. now rewrite Hshallow.
Qed.

Lemma collection_present_checks_every_model_witness :
  exists m' r,
    In m' (models (Sample.users [Sample.user; Sample.user_with_address]))
    /\ Unsafe Sample.OpenUserEntity m' r
    /\ Plugin.Collection_present JsonEntity.represent_arg Bookshelf.Collection_toJSON
         Bookshelf.load_nothing (ArgObject (Sample.with_entity Sample.OpenUserEntity))
         (Plugin.mkWorld (Sample.users [Sample.user; Sample.user_with_address]) [])
       = (Throw (JsError (unsafe_message r)),
          Plugin.mkWorld (Sample.users [Sample.user; Sample.user_with_address]) ([] ++ [[]])).
Proof.
  refine (proj1 (proj1 (proj2 (collection_present_checks_every_model
                                 JsonEntity.represent_arg
                                 Bookshelf.Collection_toJSON Bookshelf.load_nothing
                                 (ArgObject (Sample.with_entity Sample.OpenUserEntity))
                                 (Sample.users [Sample.user; Sample.user_with_address])
                                 (Sample.users [Sample.user; Sample.user_with_address])
                                 [] Sample.OpenUserEntity Sample.user []
                                 eq_refl eq_refl eq_refl))
                   eq_refl eq_refl eq_refl) _).
  exists Sample.user_with_address, "address". split; [right; now left|].
  apply (Unsafe_here Sample.OpenUserEntity Sample.user_with_address
           [("address", Sample.address)] "address" (expose "address"));
    [reflexivity | now left | right; now left | reflexivity | reflexivity].
Defined.

(** X14. [Collection.represent] of the second definition in src/index.js
    makes the one-level check on every model: with [entitySafeMode] enabled
    on the model class and no truthy [shallow], on models that all have a
    [relations] mapping, it throws the unsafe-relation error when the top
    level of some model is not clean, and otherwise hands the truthy
    entries of the base serialization to the entity. *)
Theorem second_definition_checks_every_model er cbase (E : Entity) (C : Collection)
  (o : Options) :
  model_entitySafeMode C = true ->
  truthy (opt_shallow o) = false ->
  (forall m, In m (models C) -> exists rels, relations m = Some rels) ->
  ((exists m, In m (models C) /\ top_level_clean E m = false) ->
   exists m r p, In m (models C) /\ In r (keys (Bookshelf.loaded m))
     /\ In p (properties E) /\ key p = r /\ using_ p = None
     /\ IndexB.Collection_represent er cbase C (Some E) o
        = (Throw (JsError (unsafe_message r)), o))
  /\ ((forall m, In m (models C) -> top_level_clean E m = true) ->
      IndexB.Collection_represent er cbase C (Some E) o
      = match cbase C o with
        | (Ok items, o') => (er E (VArr (filter truthy items)) o', o')
        | (Throw err, o') => (Throw err, o')
        end).
Proof.
  intros Hsafe Hshallow Hrels.
  assert (IndexB.Collection_represent er cbase C (Some E) o
          = match forEach (models C) (fun model => checkRelations E model) with
            | Throw err => (Throw err, o)
            | Ok _ =>
                match cbase C o with
                | (Ok items, o') => (er E (VArr (filter truthy items)) o', o')
                | (Throw err, o') => (Throw err, o')
                end
            end) as Hrun.
  { unfold IndexB.Collection_represent, bind, get, lift, ret.
    rewrite Hsafe, Hshallow. cbn [negb andb].
    destruct (forEach _ _) as [[]|err]; [|reflexivity].
    destruct (cbase C o) as [[items|err] o']; reflexivity. }
  rewrite Hrun.
  destruct (res_unit_cases (forEach (models C) (fun model => checkRelations E model)))
    as [Hok|[err Herr]].
  - split.
    + intros (m & Hm & Hdirty). exfalso.
      destruct (Hrels m Hm) as [rels Hm_rels].
      pose proof (forEach_Ok_inv _ _ Hok m Hm) as Hpass. cbv beta in Hpass.
      destruct (checkRelations_spec E m rels Hm_rels)
        as [[Hclean _]|(_ & r & p & _ & _ & _ & _ & Hthrow)]; congruence.
    + intros _. now rewrite Hok.
  - pose proof Herr as Hthrow. apply forEach_Throw_inv in Herr.
    destruct Herr as (m & Hm & Hcheck). destruct (Hrels m Hm) as [rels Hm_rels].
    destruct (checkRelations_spec E m rels Hm_rels)
      as [[_ Hpass]|(Hdirty & r & p & Hr & Hp & Hk & Hu & Hmsg)]; [congruence|].
    split.
    + intros _. exists m, r, p. rewrite (loaded_Some m rels Hm_rels), Hthrow.
      repeat split; try assumption. congruence.
    + intros Hclean. specialize (Hclean m Hm). congruence.
Qed.

Lemma second_definition_checks_every_model_witness :
  model_entitySafeMode (Sample.users [Sample.user; Sample.user_with_address]) = true
  /\ truthy (opt_shallow empty_options) = false
  /\ exists m r p,
       In m (models (Sample.users [Sample.user; Sample.user_with_address]))
       /\ In r (keys (Bookshelf.loaded m))
       /\ In p (properties Sample.OpenUserEntity) /\ key p = r /\ using_ p = None
       /\ IndexB.Collection_represent JsonEntity.represent_on
            (Bookshelf.hooked_collection JsonEntity.represent_on)
            (Sample.users [Sample.user; Sample.user_with_address])
            (Some Sample.OpenUserEntity) empty_options
          = (Throw (JsError (unsafe_message r)), empty_options).
Proof.
  split; [reflexivity|]. split; [reflexivity|].
  refine (proj1 (second_definition_checks_every_model JsonEntity.represent_on
                   (Bookshelf.hooked_collection JsonEntity.represent_on)
                   Sample.OpenUserEntity
                   (Sample.users [Sample.user; Sample.user_with_address]) empty_options
                   eq_refl eq_refl _) _).
  - intros m [<-|[<-|[]]]; eexists; reflexivity.
  - exists Sample.user_with_address. split; [right; now left | reflexivity].
Defined.
